(** * update-adguard-dns.py: a shallow embedding and its properties

    The script keeps AdGuard Home DNS rewrite rules pointed at the local
    machine's LAN address.  This development embeds its functions as Rocq
    definitions and proves properties of them.

    Conventions.
    - A Python [str] is a Rocq [string]; a character is a code point below
      256, with Python's own character classes on that range.
    - [None] is [None]; a Python value tested with [if x:] goes through
      [truthy].
    - Every call that leaves the process (file system, name resolution,
      subprocess, HTTP) appends an event to a trace, and its answer comes
      from a [World].  Log lines are not modelled, with one exception: the
      first line of [process_hostname] is the event [EvProcess]. *)

From Stdlib Require Import String Ascii List Bool Arith Lia.
Import ListNotations.
Local Open Scope string_scope.
Local Open Scope list_scope.
Local Open Scope nat_scope.

(** ** Python string primitives *)

Module PyStr.

(** [str.isspace] on one character (code points 9-13, 28-32, 133, 160). *)
Definition isspace_char (c : ascii) : bool :=
  let n := nat_of_ascii c in
  ((9 <=? n) && (n <=? 13)) || ((28 <=? n) && (n <=? 32))
  || (n =? 133) || (n =? 160).

(** [str.isalnum] on one character: ASCII digits and letters, and the
    letters and numeric characters of the Latin-1 block. *)
Definition isalnum_char (c : ascii) : bool :=
  let n := nat_of_ascii c in
  ((48 <=? n) && (n <=? 57)) || ((65 <=? n) && (n <=? 90))
  || ((97 <=? n) && (n <=? 122))
  || (n =? 170) || (n =? 178) || (n =? 179) || (n =? 181) || (n =? 185)
  || (n =? 186) || ((188 <=? n) && (n <=? 190))
  || ((192 <=? n) && (n <=? 214)) || ((216 <=? n) && (n <=? 246))
  || ((248 <=? n) && (n <=? 255)).

(** [if s:] on a string. *)
Definition nonempty (s : string) : bool :=
  match s with EmptyString => false | String _ _ => true end.

Fixpoint chars (s : string) : list ascii :=
  match s with
  | EmptyString => []
  | String c t => c :: chars t
  end.

Fixpoint all_chars (p : ascii -> bool) (s : string) : bool :=
  match s with
  | EmptyString => true
  | String c t => p c && all_chars p t
  end.

(** [s.isalnum()]: at least one character, and every character is
    alphanumeric. *)
Definition isalnum (s : string) : bool := nonempty s && all_chars isalnum_char s.

(** [s.replace(c, '')] for a one-character [c]. *)
Fixpoint remove_char (c : ascii) (s : string) : string :=
  match s with
  | EmptyString => EmptyString
  | String x t => if Ascii.eqb x c then remove_char c t
                  else String x (remove_char c t)
  end.

(** [s.startswith(p)]. *)
Fixpoint startswith (s p : string) {struct p} : bool :=
  match p with
  | EmptyString => true
  | String a p' =>
      match s with
      | EmptyString => false
      | String b s' => Ascii.eqb b a && startswith s' p'
      end
  end.

(** [p in s]: [p] occurs in [s] as a substring. *)
Fixpoint occurs_in (p s : string) {struct s} : bool :=
  startswith s p ||
  match s with
  | EmptyString => false
  | String _ t => occurs_in p t
  end.

(** [s.split(c)] for a one-character separator: never the empty list. *)
Fixpoint split (c : ascii) (s : string) : list string :=
  match s with
  | EmptyString => [EmptyString]
  | String x t =>
      if Ascii.eqb x c then EmptyString :: split c t
      else match split c t with
           | p :: ps => String x p :: ps
           | [] => [String x EmptyString]
           end
  end.

Fixpoint lstrip (s : string) : string :=
  match s with
  | EmptyString => EmptyString
  | String c t => if isspace_char c then lstrip t else s
  end.

Fixpoint rstrip (s : string) : string :=
  match s with
  | EmptyString => EmptyString
  | String c t =>
      match rstrip t with
      | EmptyString => if isspace_char c then EmptyString
                       else String c EmptyString
      | r => String c r
      end
  end.

(** [s.strip()]. *)
Definition strip (s : string) : string := rstrip (lstrip s).

(** [s.split()]: the maximal runs of non-whitespace characters.  The
    accumulator [cur] is the run being read, when there is one. *)
Fixpoint split_ws_from (cur : option string) (s : string) : list string :=
  match s with
  | EmptyString => match cur with Some w => [w] | None => [] end
  | String c t =>
      if isspace_char c then
        match cur with
        | Some w => w :: split_ws_from None t
        | None => split_ws_from None t
        end
      else
        match cur with
        | Some w => split_ws_from (Some (String.append w (String c EmptyString))) t
        | None => split_ws_from (Some (String c EmptyString)) t
        end
  end.

Definition split_ws (s : string) : list string := split_ws_from None s.

(** [l.index(x)]: the first position of [x]; [None] stands for
    [ValueError]. *)
Fixpoint index (x : string) (l : list string) : option nat :=
  match l with
  | [] => None
  | y :: l' => if String.eqb y x then Some 0
               else option_map S (index x l')
  end.

End PyStr.

(** [if x:] on a value that is [None] or a string. *)
Definition truthy (x : option string) : bool :=
  match x with
  | Some s => PyStr.nonempty s
  | None => false
  end.

(** [x == s] where [x] is [None] or a string and [s] is a string. *)
Definition py_eq (x : option string) (s : string) : bool :=
  match x with
  | Some t => String.eqb t s
  | None => false
  end.

(** ** Configuration *)

(** The module-level values read from the environment with [os.getenv]. *)
Record Config := mkConfig {
  ADGUARD_HOST : option string;
  ADGUARD_PORT : option string;
  HOSTNAME : option string;
  HOSTNAMES : option string;
  ADGUARD_USERNAME : option string;
  ADGUARD_PASSWORD : option string
}.

Definition parse_hostnames (cfg : Config) : list string :=
  if truthy (HOSTNAMES cfg) then
    match HOSTNAMES cfg with
    | Some hs =>
        map PyStr.strip
            (filter (fun hostname => PyStr.nonempty (PyStr.strip hostname))
                    (PyStr.split "," hs))
    | None => []
    end
  else if truthy (HOSTNAME cfg) then
    match HOSTNAME cfg with
    | Some h => if PyStr.nonempty (PyStr.strip h) then [PyStr.strip h] else []
    | None => []
    end
  else [].

(** The loop body of [validate_hostname] for one label. *)
Definition label_ok (part : string) : bool :=
  if negb (PyStr.nonempty part) || (63 <? String.length part) then false
  else if negb (PyStr.isalnum
                  (PyStr.remove_char "." (PyStr.remove_char "-" part)))
  then false
  else true.

Definition validate_hostname (hostname : string) : bool :=
  if negb (PyStr.nonempty hostname) || (253 <? String.length hostname)
  then false
  else
    let parts := PyStr.split "." hostname in
    if List.length parts <? 1 then false
    else forallb label_ok parts.

(** ** The outside world and the trace of calls *)

Inductive Command := IpRouteGet | IpAddrShow | Ifconfig.

(** One entry of the list returned by [/control/rewrite/list];
    a projection is [rewrite.get(key)]. *)
Record Rewrite := mkRewrite {
  domain : option string;
  answer : option string
}.

Inductive Event :=
| EvExists (path : string)
| EvOpen (path : string)
| EvResolve (name : string)
| EvRun (cmd : Command)
| EvList
| EvDelete (d : string) (ok : bool)
| EvAdd (d ip : string) (ok : bool)
| EvProcess (hostname : string).

(** What the environment answers.  [None] is a raised exception that the
    caller catches.  The two mutating HTTP calls may answer differently
    from one call to the next, so they see the trace so far. *)
Record World := mkWorld {
  path_exists : string -> bool;
  file_content : string -> option string;
  gethostbyname : string -> option string;
  run_command : Command -> option string;
  http_list : option (list Rewrite);
  http_delete : list Event -> string -> bool;
  http_add : list Event -> string -> string -> bool
}.

(** Computations that extend the trace. *)
Definition M (A : Type) : Type := list Event -> A * list Event.

Definition ret {A} (a : A) : M A := fun tr => (a, tr).

Definition bind {A B} (c : M A) (k : A -> M B) : M B :=
  fun tr => let (a, tr') := c tr in k a tr'.

Definition emit (e : Event) : M unit := fun tr => (tt, tr ++ [e]).

Declare Scope m_scope.
Delimit Scope m_scope with m.
Notation "x <- c ;; k" := (bind c (fun x => k))
  (at level 61, c at next level, right associativity) : m_scope.
Notation "c ;; k" := (bind c (fun _ => k))
  (at level 61, right associativity) : m_scope.
Local Open Scope m_scope.

(** An open text file: what is still unread.  [read] returns all of it and
    leaves the position at the end of the file. *)
Module FileHandle.

Definition t := string.

Definition open (content : string) : t := content.

Definition read (f : t) : string * t := (f, EmptyString).

End FileHandle.

(** ** IP resolver *)

Definition is_running_in_docker (w : World) : M bool :=
  emit (EvExists "/.dockerenv") ;;
  if path_exists w "/.dockerenv" then ret true
  else
    emit (EvOpen "/proc/1/cgroup") ;;
    match file_content w "/proc/1/cgroup" with
    | None => ret false
    | Some content =>
        let f := FileHandle.open content in
        let (s1, f1) := FileHandle.read f in
        if PyStr.occurs_in "docker" s1 then ret true
        else
          let (s2, _) := FileHandle.read f1 in
          ret (PyStr.occurs_in "containerd" s2)
    end.

Definition get_docker_host_ip (w : World) : M (option string) :=
  emit (EvResolve "host.docker.internal") ;;
  match gethostbyname w "host.docker.internal" with
  | Some ip => ret (Some ip)
  | None => ret None
  end.

(** The test [not ip.startswith('127.') and not ip.startswith('169.254.')]
    of the three parsing loops. *)
Definition not_loopback_or_link_local (ip : string) : bool :=
  negb (PyStr.startswith ip "127.") && negb (PyStr.startswith ip "169.254.").

Definition LF : ascii := ascii_of_nat 10.

(** How a parsing loop ends: with [return ip], with an exception, or by
    running off the end of its lines. *)
Inductive Scan := ScanReturn (ip : string) | ScanRaise | ScanDone.

(** The first loop of [get_ip_linux], over the output of
    [ip route get 8.8.8.8]. *)
Fixpoint scan_route (lines : list string) : Scan :=
  match lines with
  | [] => ScanDone
  | line :: rest =>
      if PyStr.occurs_in "src" line then
        let parts := PyStr.split_ws line in
        match PyStr.index "src" parts with
        | None => ScanRaise
        | Some src_index =>
            if src_index + 1 <? List.length parts then
              let ip := nth (src_index + 1) parts EmptyString in
              if not_loopback_or_link_local ip then ScanReturn ip
              else scan_route rest
            else scan_route rest
        end
      else scan_route rest
  end.

(** The second loop of [get_ip_linux], over the output of [ip addr show]. *)
Fixpoint scan_addr (lines : list string) : option string :=
  match lines with
  | [] => None
  | line0 :: rest =>
      let line := PyStr.strip line0 in
      if PyStr.startswith line "inet " && PyStr.occurs_in "scope global" line
      then
        let parts := PyStr.split_ws line in
        if 2 <=? List.length parts then
          let ip := hd EmptyString
                       (PyStr.split "/" (nth 1 parts EmptyString)) in
          if not_loopback_or_link_local ip then Some ip
          else scan_addr rest
        else scan_addr rest
      else scan_addr rest
  end.

Definition get_ip_linux (w : World) : M (option string) :=
  emit (EvRun IpRouteGet) ;;
  match run_command w IpRouteGet with
  | None => ret None
  | Some stdout =>
      match scan_route (PyStr.split LF stdout) with
      | ScanReturn ip => ret (Some ip)
      | ScanRaise => ret None
      | ScanDone =>
          emit (EvRun IpAddrShow) ;;
          match run_command w IpAddrShow with
          | None => ret None
          | Some stdout2 => ret (scan_addr (PyStr.split LF stdout2))
          end
      end
  end.

(** The loop of [get_ip_macos]; [current_interface] is carried along. *)
Fixpoint scan_ifconfig (current_interface : option string)
    (lines : list string) : option string :=
  match lines with
  | [] => None
  | line0 :: rest =>
      let line := PyStr.strip line0 in
      if PyStr.startswith line "en" then
        scan_ifconfig (Some (hd EmptyString (PyStr.split ":" line))) rest
      else if PyStr.startswith line "inet " && truthy current_interface
              && match current_interface with
                 | Some i => PyStr.startswith i "en"
                 | None => false
                 end
      then
        let parts := PyStr.split_ws line in
        if 2 <=? List.length parts then
          let ip := nth 1 parts EmptyString in
          if not_loopback_or_link_local ip then Some ip
          else scan_ifconfig current_interface rest
        else scan_ifconfig current_interface rest
      else scan_ifconfig current_interface rest
  end.

Definition get_ip_macos (w : World) : M (option string) :=
  emit (EvRun Ifconfig) ;;
  match run_command w Ifconfig with
  | None => ret None
  | Some stdout => ret (scan_ifconfig None (PyStr.split LF stdout))
  end.

Definition get_ethernet_ip (w : World) : M (option string) :=
  in_docker <- is_running_in_docker w ;;
  if in_docker then get_docker_host_ip w
  else
    a <- get_ip_linux w ;;
    ip <- (if truthy a then ret a else get_ip_macos w) ;;
    if truthy ip then ret ip else ret None.

(** ** Remote store client *)

Definition get_existing_rewrites (w : World) : M (option (list Rewrite)) :=
  emit EvList ;; ret (http_list w).

Definition delete_existing_rewrite (w : World) (d : string) : M bool :=
  fun tr => let ok := http_delete w tr d in (ok, tr ++ [EvDelete d ok]).

Definition add_dns_rewrite (w : World) (d ip : string) : M bool :=
  fun tr => let ok := http_add w tr d ip in (ok, tr ++ [EvAdd d ip ok]).

(** ** Rewrite reconciler *)

(** The [for rewrite in existing_rewrites] loop of [process_hostname]:
    [Some b] is [return b], [None] is leaving the loop (by [break] or at
    its end) towards the create call. *)
Fixpoint scan_rewrites (w : World) (hostname local_ip : string)
    (existing_rewrites : list Rewrite) : M (option bool) :=
  match existing_rewrites with
  | [] => ret None
  | rewrite :: rest =>
      if py_eq (domain rewrite) hostname then
        if py_eq (answer rewrite) local_ip then ret (Some true)
        else
          deleted <- delete_existing_rewrite w hostname ;;
          if negb deleted then ret (Some false) else ret None
      else scan_rewrites w hostname local_ip rest
  end.

Definition process_hostname (w : World) (hostname local_ip : string)
    (existing_rewrites : list Rewrite) : M bool :=
  emit (EvProcess hostname) ;;
  if negb (validate_hostname hostname) then ret false
  else
    r <- scan_rewrites w hostname local_ip existing_rewrites ;;
    match r with
    | Some b => ret b
    | None => add_dns_rewrite w hostname local_ip
    end.

(** The [for hostname in hostnames] loop of [update_dns_rewrite], with its
    counter. *)
Fixpoint process_all (w : World) (local_ip : string)
    (existing_rewrites : list Rewrite) (hostnames : list string)
    (success_count : nat) : M nat :=
  match hostnames with
  | [] => ret success_count
  | hostname :: rest =>
      ok <- process_hostname w hostname local_ip existing_rewrites ;;
      process_all w local_ip existing_rewrites rest
        (if ok then success_count + 1 else success_count)
  end.

(** The summary at the end of [update_dns_rewrite]. *)
Definition summary (success_count total_count : nat) : bool :=
  if success_count =? total_count then true
  else if 0 <? success_count then true
  else false.

Definition update_dns_rewrite (cfg : Config) (w : World) : M bool :=
  if negb (truthy (ADGUARD_USERNAME cfg)) || negb (truthy (ADGUARD_PASSWORD cfg))
  then ret false
  else
    let hostnames := parse_hostnames cfg in
    match hostnames with
    | [] => ret false
    | _ :: _ =>
        local_ip <- get_ethernet_ip w ;;
        match local_ip with
        | None => ret false
        | Some ip =>
            if negb (PyStr.nonempty ip) then ret false
            else
              existing_rewrites <- get_existing_rewrites w ;;
              match existing_rewrites with
              | None => ret false
              | Some rewrites =>
                  let total_count := List.length hostnames in
                  success_count <- process_all w ip rewrites hostnames 0 ;;
                  ret (summary success_count total_count)
              end
        end
    end.

(** [main]: the exit status of the process ([0] when [main] returns). *)
Definition main (argv : list string) (cfg : Config) (w : World) : M nat :=
  let arg1 := nth 1 argv EmptyString in
  if (1 <? List.length argv)
     && (String.eqb arg1 "-h" || String.eqb arg1 "--help")
  then ret 0
  else if (1 <? List.length argv) && String.eqb arg1 "--dry-run" then
    _ <- get_ethernet_ip w ;; ret 0
  else
    success <- update_dns_rewrite cfg w ;;
    ret (if success then 0 else 1).

(** The entries of the comma-separated field as the configuration surface
    describes them: split at commas, each entry trimmed, empty entries
    dropped. *)
Definition trimmed_entries (hs : string) : list string :=
  filter PyStr.nonempty (map PyStr.strip (PyStr.split "," hs)).

(** The per-hostname results of the loop of [update_dns_rewrite], in order:
    what [process_hostname] returned for each hostname at the point of the
    run where it was called. *)
Fixpoint outcomes (w : World) (local_ip : string)
    (existing_rewrites : list Rewrite) (hostnames : list string)
    (tr : list Event) : list bool :=
  match hostnames with
  | [] => []
  | hostname :: rest =>
      let (ok, tr') := process_hostname w hostname local_ip existing_rewrites tr in
      ok :: outcomes w local_ip existing_rewrites rest tr'
  end.

(** The first rule of the snapshot whose domain is [hostname]. *)
Definition first_match (hostname : string) (existing_rewrites : list Rewrite)
  : option Rewrite :=
  find (fun rewrite => py_eq (domain rewrite) hostname) existing_rewrites.

(** Classes of events. *)
Definition is_detection (e : Event) : bool :=
  match e with EvExists _ | EvOpen _ => true | _ => false end.

Definition is_resolver (e : Event) : bool :=
  match e with
  | EvExists _ | EvOpen _ | EvResolve _ | EvRun _ => true
  | _ => false
  end.

Definition is_fallback (e : Event) : bool :=
  match e with EvRun _ => true | _ => false end.

Definition is_mutation (e : Event) : bool :=
  match e with EvDelete _ _ | EvAdd _ _ _ => true | _ => false end.

Definition is_remote (e : Event) : bool :=
  match e with EvList | EvDelete _ _ | EvAdd _ _ _ => true | _ => false end.

Definition is_processing (e : Event) : bool :=
  match e with EvProcess _ => true | _ => false end.

(** ** Sample inputs and auxiliary notions *)

(** A label of 64 characters, and a name of 254 characters whose labels
    are all short enough. *)
Definition label64 : string :=
  "aaaaaaaaaaaaaaaaaaaaaaaaaaaaaaaaaaaaaaaaaaaaaaaaaaaaaaaaaaaaaaaa".

Definition name254 : string :=
  let l62 := "aaaaaaaaaaaaaaaaaaaaaaaaaaaaaaaaaaaaaaaaaaaaaaaaaaaaaaaaaaaaaa" in
  String.concat "." [l62; l62; l62; l62; "aa"].

(** [c] only appends to the trace, and only events of class [P]. *)
Definition appends {A} (P : Event -> bool) (c : M A) : Prop :=
  forall tr, exists evs, snd (c tr) = tr ++ evs /\ forallb P evs = true.

(** A machine with nothing on it: no marker file, no readable files, no
    names, no commands, no store; used as the base of the examples. *)
Definition empty_world : World :=
  mkWorld (fun _ => false) (fun _ => None) (fun _ => None) (fun _ => None)
          None (fun _ _ => false) (fun _ _ _ => false).

(** A container (marker file present) where the host-gateway name resolves
    to a loopback address. *)
Definition loopback_gateway_world : World :=
  mkWorld (fun path => String.eqb path "/.dockerenv")
          (file_content empty_world)
          (fun name => if String.eqb name "host.docker.internal"
                       then Some "127.0.0.1" else None)
          (run_command empty_world) (http_list empty_world)
          (http_delete empty_world) (http_add empty_world).

(** A bare containerd task: no marker file, and a control-group record
    that names containerd and not docker. *)
Definition containerd_world : World :=
  mkWorld (path_exists empty_world)
          (fun path => if String.eqb path "/proc/1/cgroup"
                       then Some "0::/system.slice/containerd.service"
                       else None)
          (gethostbyname empty_world)
          (run_command empty_world) (http_list empty_world)
          (http_delete empty_world) (http_add empty_world).

(** Events of the containerized path: detection, then name resolution. *)
Definition is_container_path (e : Event) : bool :=
  match e with EvExists _ | EvOpen _ | EvResolve _ => true | _ => false end.

(** A container (marker file present) where the host-gateway name does not
    resolve. *)
Definition unresolvable_gateway_world : World :=
  mkWorld (fun path => String.eqb path "/.dockerenv")
          (file_content empty_world) (gethostbyname empty_world)
          (fun _ => Some "8.8.8.8 via 10.0.0.1 dev eth0 src 10.0.0.7 uid 0")
          (Some []) (fun _ _ => true) (fun _ _ _ => true).

Definition sample_config : Config :=
  mkConfig (Some "192.168.1.2") (Some "80") None
           (Some "a.local, ,b.local") (Some "admin") (Some "secret").

(** The rule for [old.local] is stale once the address is 10.0.0.7. *)
Definition sample_snapshot : list Rewrite :=
  [mkRewrite (Some "other.local") (Some "10.0.0.9");
   mkRewrite (Some "old.local") (Some "10.0.0.3");
   mkRewrite (Some "here.local") (Some "10.0.0.7");
   mkRewrite (Some "old.local") (Some "10.0.0.7")].

(** A store that is reachable; deleting fails for [locked.local]. *)
Definition sample_world : World :=
  mkWorld (path_exists empty_world) (file_content empty_world)
          (gethostbyname empty_world)
          (fun cmd => match cmd with
                      | IpRouteGet =>
                          Some "8.8.8.8 via 10.0.0.1 dev eth0 src 10.0.0.7 uid 0"
                      | _ => None
                      end)
          (Some sample_snapshot)
          (fun _ d => negb (String.eqb d "locked.local"))
          (fun _ _ _ => true).

(** A valid hostname whose first rule in the snapshot already answers with
    the target address. *)
Definition already_satisfied (snap : list Rewrite) (ip h : string) : Prop :=
  validate_hostname h = true
  /\ exists r, first_match h snap = Some r /\ answer r = Some ip.

(** No credentials. *)
Definition no_password_config : Config :=
  mkConfig (Some "192.168.1.2") (Some "80") None
           (Some "a.local, ,b.local") (Some "admin") None.

(** The address resolves through [ip route], and the store is down. *)
Definition store_down_world : World :=
  mkWorld (path_exists empty_world) (file_content empty_world)
          (gethostbyname empty_world)
          (fun cmd => match cmd with
                      | IpRouteGet =>
                          Some "8.8.8.8 via 10.0.0.1 dev eth0 src 10.0.0.7 uid 0"
                      | _ => None
                      end)
          None (fun _ _ => true) (fun _ _ _ => true).

(** Two hostnames succeed and the middle one fails validation. *)
Definition partial_config : Config :=
  mkConfig (Some "192.168.1.2") (Some "80") None
           (Some "here.local,bad_name.local,new.local")
           (Some "admin") (Some "secret").

(** Both configured hostnames already point to 10.0.0.7. *)
Definition settled_config : Config :=
  mkConfig (Some "192.168.1.2") (Some "80") None
           (Some "here.local, here.local") (Some "admin") (Some "secret").

(** Events of the strategies used outside a container. *)
Definition is_host_path (e : Event) : bool :=
  match e with EvExists _ | EvOpen _ | EvRun _ => true | _ => false end.

(** A delete or a create for the domain [h], the create with answer [ip]. *)
Definition mutation_on (h ip : string) (e : Event) : bool :=
  match e with
  | EvDelete d _ => String.eqb d h
  | EvAdd d a _ => String.eqb d h && String.eqb a ip
  | _ => false
  end.

(** The events of the loop over [hs] with address [ip]: processing marks,
    and deletes and creates for valid hostnames of [hs], the creates with
    answer [ip]. *)
Definition run_event_ok (hs : list string) (ip : string) (e : Event) : bool :=
  match e with
  | EvProcess _ => true
  | EvDelete d _ => existsb (String.eqb d) hs && validate_hostname d
  | EvAdd d a _ =>
      existsb (String.eqb d) hs && validate_hostname d && String.eqb a ip
  | _ => false
  end.

(** What [validate_hostname] asks of one label: not empty, at most 63
    characters, only alphanumeric characters and hyphens, and at least one
    alphanumeric character. *)
Definition valid_label (p : string) : Prop :=
  p <> EmptyString
  /\ String.length p <= 63
  /\ (forall c, In c (PyStr.chars p) ->
             PyStr.isalnum_char c = true \/ c = "-"%char)
  /\ (exists c, In c (PyStr.chars p) /\ PyStr.isalnum_char c = true).

(** An [ifconfig] output with an [inet] line under [lo0] only. *)
Definition loopback_only_ifconfig : string :=
  String.concat (String LF EmptyString)
    ["lo0: flags=8049<UP,LOOPBACK,RUNNING,MULTICAST> mtu 16384";
     "    inet 10.0.0.5 netmask 0xff000000"].

(** A machine where only [ifconfig] works, with that output. *)
Definition macos_loopback_world : World :=
  mkWorld (path_exists empty_world) (file_content empty_world)
          (gethostbyname empty_world)
          (fun cmd => match cmd with
                      | Ifconfig => Some loopback_only_ifconfig
                      | _ => None
                      end)
          (http_list empty_world) (http_delete empty_world)
          (http_add empty_world).

(** A machine where [ip route get] answers with a line that has [src] only
    inside a longer word, and [ip addr show] would give an address. *)
Definition odd_route_world : World :=
  mkWorld (path_exists empty_world) (file_content empty_world)
          (gethostbyname empty_world)
          (fun cmd => match cmd with
                      | IpRouteGet => Some "8.8.8.8 dev eth0 srcaddr 10.0.0.7"
                      | IpAddrShow =>
                          Some "    inet 10.0.0.7/24 brd 10.0.0.255 scope global eth0"
                      | Ifconfig => None
                      end)
          (http_list empty_world) (http_delete empty_world)
          (http_add empty_world).

(** A machine where [ip route get] finds nothing and [ip addr show] lists
    one global address. *)
Definition addr_only_world : World :=
  mkWorld (path_exists empty_world) (file_content empty_world)
          (gethostbyname empty_world)
          (fun cmd => match cmd with
                      | IpRouteGet => Some "unreachable"
                      | IpAddrShow =>
                          Some "    inet 10.0.0.7/24 brd 10.0.0.255 scope global eth0"
                      | Ifconfig => None
                      end)
          (http_list empty_world) (http_delete empty_world)
          (http_add empty_world).

(** A container whose control-group record names docker, without the
    marker file. *)
Definition docker_cgroup_world : World :=
  mkWorld (path_exists empty_world)
          (fun path => if String.eqb path "/proc/1/cgroup"
                       then Some "12:pids:/docker/4f1c2e"
                       else None)
          (fun name => if String.eqb name "host.docker.internal"
                       then Some "192.168.65.2" else None)
          (run_command empty_world) (http_list empty_world)
          (http_delete empty_world) (http_add empty_world).

(** Every configured hostname is malformed. *)
Definition invalid_config : Config :=
  mkConfig (Some "192.168.1.2") (Some "80") None
           (Some "bad_name.local,a..b") (Some "admin") (Some "secret").

(** The legacy field is set and the new one holds blanks and commas only. *)
Definition blank_config : Config :=
  mkConfig (Some "192.168.1.2") (Some "80") (Some "old.local")
           (Some " , ,") (Some "admin") (Some "secret").

(** ASCII letters and digits. *)
Definition ascii_alnum (c : ascii) : bool :=
  let n := nat_of_ascii c in
  ((48 <=? n) && (n <=? 57)) || ((65 <=? n) && (n <=? 90))
  || ((97 <=? n) && (n <=? 122)).

(** The vulgar fraction one quarter (code point 188) followed by
    [.local]. *)
Definition quarter_name : string := String (ascii_of_nat 188) ".local".

Definition first_char (s : string) : option ascii :=
  match s with
  | EmptyString => None
  | String c _ => Some c
  end.

Fixpoint last_char (s : string) : option ascii :=
  match s with
  | EmptyString => None
  | String c t =>
      match t with
      | EmptyString => Some c
      | String _ _ => last_char t
      end
  end.

(** [t] neither starts nor ends with a whitespace character. *)
Definition no_outer_space (t : string) : Prop :=
  forall a, first_char t = Some a \/ last_char t = Some a ->
            PyStr.isspace_char a = false.

(** [t] is [e] without its leading and trailing whitespace: [e] is [t]
    between two runs of whitespace characters, and [t] neither starts nor
    ends with one. *)
Definition trimmed_of (e t : string) : Prop :=
  exists l r,
    e = String.append l (String.append t r)
    /\ PyStr.all_chars PyStr.isspace_char l = true
    /\ PyStr.all_chars PyStr.isspace_char r = true
    /\ no_outer_space t.

(** Whitespace on both sides of the names and an entry of blanks. *)
Definition spaced_config : Config :=
  mkConfig (Some "192.168.1.2") (Some "80") (Some "old.local")
           (Some "  a.local ,   , b.local  ") (Some "admin") (Some "secret").

Example split_ws_ex :
  PyStr.split_ws "  8.8.8.8 via 10.0.0.1 dev eth0 src 10.0.0.7 uid 0 "
  = ["8.8.8.8"; "via"; "10.0.0.1"; "dev"; "eth0"; "src"; "10.0.0.7"; "uid"; "0"].
Proof. reflexivity. Qed.

Example parse_ex :
  parse_hostnames (mkConfig None None (Some "old") (Some "a.local, ,b.local") None None)
  = ["a.local"; "b.local"].
Proof. reflexivity. Qed.

Example validate_ex :
  map validate_hostname ["a.local"; "a.local."; "a..b"; ".a"; "-"; "a_b"; "x-1.y"]
  = [true; false; false; false; false; false; true].
Proof. reflexivity. Qed.

(** * Properties *)

(** ** Strings *)

Section StringFacts.

Lemma nonempty_false (s : string) : PyStr.nonempty s = false <-> s = EmptyString.
Proof. destruct s; simpl; split; congruence. Qed.

Lemma split_not_nil (c : ascii) (s : string) : PyStr.split c s <> [].
Proof.
  destruct s as [|x t]; simpl; [discriminate|].
  destruct (Ascii.eqb x c); [discriminate|].
  destruct (PyStr.split c t); discriminate.
Qed.

(** A character other than the separator lies in one of the pieces. *)
Lemma split_keeps_char (sep c : ascii) (s : string) :
  In c (PyStr.chars s) -> c <> sep ->
  exists p, In p (PyStr.split sep s) /\ In c (PyStr.chars p).
Proof.
  intros Hin Hne. induction s as [|x t IH]; simpl in *; [contradiction|].
  destruct (Ascii.eqb_spec x sep) as [->|Hx].
  - destruct Hin as [->|Hin]; [congruence|].
    destruct (IH Hin) as (p & Hp & Hc). exists p; simpl; auto.
  - destruct (PyStr.split sep t) as [|q qs] eqn:E.
    + exfalso; eapply split_not_nil; eassumption.
    + destruct Hin as [->|Hin].
      * exists (String c q); simpl; auto.
      * destruct (IH Hin) as (p & [<-|Hp] & Hc).
        -- exists (String x q); simpl; auto.
        -- exists p; simpl; auto.
Qed.

Lemma remove_char_keeps (x c : ascii) (s : string) :
  In c (PyStr.chars s) -> c <> x -> In c (PyStr.chars (PyStr.remove_char x s)).
Proof.
  intros Hin Hne. induction s as [|y t IH]; simpl in *; [contradiction|].
  destruct (Ascii.eqb_spec y x) as [->|Hy].
  - destruct Hin as [->|Hin]; [congruence | auto].
  - simpl. destruct Hin; auto.
Qed.

Lemma all_chars_false (p : ascii -> bool) (c : ascii) (s : string) :
  In c (PyStr.chars s) -> p c = false -> PyStr.all_chars p s = false.
Proof.
  intros Hin Hp. induction s as [|y t IH]; simpl in *; [contradiction|].
  destruct Hin as [->|Hin].
  - now rewrite Hp.
  - rewrite (IH Hin). apply andb_false_r.
Qed.

(** A separator in first position leaves an empty first piece. *)
Lemma split_leading (c : ascii) (t : string) :
  In EmptyString (PyStr.split c (String c t)).
Proof. simpl. rewrite Ascii.eqb_refl. simpl; auto. Qed.

(** A separator in last position leaves an empty last piece. *)
Lemma split_trailing (c : ascii) (a : string) :
  exists p l,
    PyStr.split c (String.append a (String c EmptyString))
    = p :: l ++ [EmptyString].
Proof.
  induction a as [|x t (p & l & IH)]; simpl.
  - rewrite Ascii.eqb_refl. exists EmptyString, []. reflexivity.
  - rewrite IH. destruct (Ascii.eqb x c).
    + exists EmptyString, (p :: l). reflexivity.
    + exists (String x p), l. reflexivity.
Qed.

(** Two separators in a row leave an empty piece between them. *)
Lemma split_consecutive (c : ascii) (a b : string) :
  In EmptyString
     (tl (PyStr.split c (String.append a (String c (String c b))))).
Proof.
  induction a as [|x t IH]; simpl.
  - rewrite !Ascii.eqb_refl. simpl; auto.
  - destruct (Ascii.eqb x c); simpl.
    + destruct (PyStr.split c (String.append t (String c (String c b))));
        simpl in *; auto.
    + destruct (PyStr.split c (String.append t (String c (String c b))));
        simpl in *; [contradiction | assumption].
Qed.

Lemma filter_map_comm {A B} (f : A -> B) (p : B -> bool) (l : list A) :
  filter p (map f l) = map f (filter (fun a => p (f a)) l).
Proof.
  induction l as [|a l IH]; simpl; [reflexivity|].
  destruct (p (f a)); simpl; now rewrite IH.
Qed.

End StringFacts.

(** ** Hostname validation *)

Lemma forallb_false_In {A} (p : A -> bool) (x : A) (l : list A) :
  In x l -> p x = false -> forallb p l = false.
Proof.
  intros Hin Hp. induction l as [|y l IH]; simpl in *; [contradiction|].
  destruct Hin as [->|Hin].
  - now rewrite Hp.
  - rewrite (IH Hin). apply andb_false_r.
Qed.

(** A hostname with a label that the loop body refuses is refused. *)
Lemma validate_hostname_bad_label (h p : string) :
  In p (PyStr.split "." h) -> label_ok p = false -> validate_hostname h = false.
Proof.
  intros Hin Hp. unfold validate_hostname.
  destruct (negb (PyStr.nonempty h) || (253 <? String.length h)); [reflexivity|].
  cbv zeta. destruct (List.length (PyStr.split "." h) <? 1); [reflexivity|].
  eapply forallb_false_In; eassumption.
Qed.

Lemma label_ok_empty : label_ok EmptyString = false.
Proof. reflexivity. Qed.

Lemma label_ok_long (p : string) : 63 < String.length p -> label_ok p = false.
Proof.
  intros H. unfold label_ok.
  apply Nat.ltb_lt in H. rewrite H, orb_true_r. reflexivity.
Qed.

Lemma label_ok_bad_char (p : string) (c : ascii) :
  In c (PyStr.chars p) -> PyStr.isalnum_char c = false ->
  c <> "-"%char -> c <> "."%char -> label_ok p = false.
Proof.
  intros Hin Hc Hh Hd. unfold label_ok.
  destruct (negb (PyStr.nonempty p) || (63 <? String.length p)); [reflexivity|].
  unfold PyStr.isalnum.
  rewrite (all_chars_false PyStr.isalnum_char c).
  - rewrite andb_false_r. reflexivity.
  - apply remove_char_keeps; [apply remove_char_keeps|]; assumption.
  - assumption.
Qed.

(** Below code point 128, [str.isalnum] accepts the ASCII letters and
    digits and nothing else. *)
Lemma isalnum_char_ascii (c : ascii) :
  nat_of_ascii c < 128 -> PyStr.isalnum_char c = ascii_alnum c.
Proof.
  destruct c as [[] [] [] [] [] [] [] []]; vm_compute; intros H;
    solve [reflexivity | exfalso; lia].
Qed.

(** C7, the claim as written fails.  [validate_hostname] accepts
    [quarter_name], whose first character (the fraction one quarter) is
    neither an ASCII letter or digit, nor a hyphen, nor a dot:
    [str.isalnum] is true of it, as of the other letters and numeric
    characters outside ASCII. *)
Lemma validate_hostname_accepts_quarter_sign :
  In (ascii_of_nat 188) (PyStr.chars quarter_name)
  /\ ascii_alnum (ascii_of_nat 188) = false
  /\ ascii_of_nat 188 <> "-"%char
  /\ ascii_of_nat 188 <> "."%char
  /\ validate_hostname quarter_name = true.
Proof.
  split; [left; reflexivity|]. split; [reflexivity|].
  split; [discriminate|]. split; [discriminate | reflexivity].
Qed.

(** C7, amended.  [validate_hostname] returns [False] for the empty
    string, for a hostname one of whose labels (the pieces between dots) is
    longer than 63 characters, for a hostname longer than 253 characters,
    and for a hostname with a character that is neither a hyphen nor a dot
    and of which [str.isalnum] is false; among the ASCII characters these
    are all but the letters and digits. *)
Theorem validate_hostname_rejects (h : string) :
  h = EmptyString
  \/ (exists p, In p (PyStr.split "." h) /\ 63 < String.length p)
  \/ 253 < String.length h
  \/ (exists c, In c (PyStr.chars h) /\ PyStr.isalnum_char c = false
                /\ c <> "-"%char /\ c <> "."%char)
  \/ (exists c, In c (PyStr.chars h) /\ nat_of_ascii c < 128
                /\ ascii_alnum c = false
                /\ c <> "-"%char /\ c <> "."%char) ->
  validate_hostname h = false.
Proof.
  assert (Bad : forall c, In c (PyStr.chars h) ->
                  PyStr.isalnum_char c = false ->
                  c <> "-"%char -> c <> "."%char ->
                  validate_hostname h = false).
  { intros c Hin Hc Hh Hd.
    destruct (split_keeps_char "." c h Hin Hd) as (p & Hp & Hcp).
    eapply validate_hostname_bad_label; [eassumption|].
    eapply label_ok_bad_char; eassumption. }
  intros [-> | [(p & Hin & Hlen) | [Hlen | [(c & Hin & Hc & Hh & Hd)
                                           | (c & Hin & Hlt & Hc & Hh & Hd)]]]].
  - reflexivity.
  - eapply validate_hostname_bad_label; [eassumption|].
    now apply label_ok_long.
  - unfold validate_hostname. apply Nat.ltb_lt in Hlen.
    rewrite Hlen, orb_true_r. reflexivity.
  - eapply Bad; eassumption.
  - apply (Bad c); try assumption.
    now rewrite isalnum_char_ascii.
Qed.

Lemma validate_hostname_rejects_witness :
  validate_hostname EmptyString = false
  /\ validate_hostname (String.append label64 ".local") = false
  /\ validate_hostname name254 = false
  /\ validate_hostname (String (ascii_of_nat 247) ".local") = false
  /\ validate_hostname "my_host.local" = false.
Proof.
  split; [|split; [|split; [|split]]].
  - apply validate_hostname_rejects. left. reflexivity.
  - apply validate_hostname_rejects. right; left.
    exists label64. split; [vm_compute; auto | vm_compute; lia].
  - apply validate_hostname_rejects. right; right; left.
    vm_compute. lia.
  - apply validate_hostname_rejects. right; right; right; left.
    exists (ascii_of_nat 247).
    split; [left; reflexivity|]. split; [reflexivity|].
    split; discriminate.
  - apply validate_hostname_rejects. right; right; right; right.
    exists "_"%char.
    split; [simpl; auto 20|]. split; [vm_compute; lia|].
    split; [reflexivity | split; discriminate].
Defined.

(** C10.  [validate_hostname] returns [False] for every hostname with an
    empty label: one that starts with a dot, ends with a dot, or has two
    dots in a row. *)
Theorem validate_hostname_rejects_empty_label (h : string) :
  In EmptyString (PyStr.split "." h)
  \/ (exists t, h = String "." t)
  \/ (exists a, h = String.append a ".")
  \/ (exists a b, h = String.append a (String.append ".." b)) ->
  validate_hostname h = false.
Proof.
  intros H.
  assert (Hin : In EmptyString (PyStr.split "." h)).
  { destruct H as [H | [(t & ->) | [(a & ->) | (a & b & ->)]]].
    - assumption.
    - apply split_leading.
    - destruct (split_trailing "." a) as (p & l & E).
      rewrite E. right. apply in_or_app. right. simpl; auto.
    - pose proof (split_consecutive "." a b) as Hc. simpl.
      destruct (PyStr.split "." (String.append a (String "." (String "." b))));
        simpl in Hc; [contradiction | right; assumption]. }
  eapply validate_hostname_bad_label; [eassumption | apply label_ok_empty].
Qed.

Lemma validate_hostname_rejects_empty_label_witness :
  validate_hostname ".local" = false
  /\ validate_hostname "a.local." = false
  /\ validate_hostname "a..b" = false.
Proof.
  split; [|split].
  - apply validate_hostname_rejects_empty_label. right; left.
    exists "local". reflexivity.
  - apply validate_hostname_rejects_empty_label. right; right; left.
    exists "a.local". reflexivity.
  - apply validate_hostname_rejects_empty_label. right; right; right.
    exists "a", "b". reflexivity.
Defined.

(** ** Configuration parsing *)

Lemma parse_hostnames_HOSTNAMES (host port legacy user pass : option string)
    (hs : string) :
  hs <> EmptyString ->
  parse_hostnames (mkConfig host port legacy (Some hs) user pass)
  = trimmed_entries hs.
Proof.
  intros Hne. unfold parse_hostnames, trimmed_entries; simpl.
  destruct hs as [|c t]; [congruence|]. simpl PyStr.nonempty. cbv iota.
  symmetry. apply filter_map_comm.
Qed.

(** ** Traces *)

Section Traces.

Lemma appends_ret {A} P (a : A) : appends P (ret a).
Proof. intros tr. exists []. simpl. now rewrite app_nil_r. Qed.

Lemma appends_emit P e : P e = true -> appends P (emit e).
Proof. intros H tr. exists [e]. simpl. now rewrite H. Qed.

Lemma appends_bind {A B} P (c : M A) (k : A -> M B) :
  appends P c -> (forall a, appends P (k a)) -> appends P (bind c k).
Proof.
  intros Hc Hk tr. unfold bind.
  destruct (Hc tr) as (e1 & E1 & F1).
  destruct (c tr) as [a tr1]. simpl in E1. subst tr1.
  destruct (Hk a (tr ++ e1)) as (e2 & E2 & F2).
  exists (e1 ++ e2). rewrite E2, app_assoc, forallb_app, F1, F2. auto.
Qed.

Lemma appends_weaken {A} (P Q : Event -> bool) (c : M A) :
  (forall e, P e = true -> Q e = true) -> appends P c -> appends Q c.
Proof.
  intros HPQ Hc tr. destruct (Hc tr) as (evs & E & F).
  exists evs. split; [assumption|].
  rewrite forallb_forall in *. auto.
Qed.

Lemma none_of_class (P Q : Event -> bool) (evs : list Event) :
  (forall e, P e = true -> Q e = false) ->
  forallb P evs = true -> existsb Q evs = false.
Proof.
  intros HPQ F. induction evs as [|e evs IH]; simpl in *; [reflexivity|].
  apply andb_prop in F as [Fe F]. now rewrite (HPQ e Fe), IH.
Qed.

End Traces.

(** ** IP resolver *)

Lemma is_running_in_docker_appends (w : World) :
  appends is_detection (is_running_in_docker w).
Proof.
  unfold is_running_in_docker.
  apply appends_bind; [now apply appends_emit|]. intros _.
  destruct (path_exists w "/.dockerenv"); [apply appends_ret|].
  apply appends_bind; [now apply appends_emit|]. intros _.
  destruct (file_content w "/proc/1/cgroup") as [content|]; [|apply appends_ret].
  unfold FileHandle.read, FileHandle.open.
  destruct (PyStr.occurs_in "docker" content); apply appends_ret.
Qed.

(** What the detection answers: the second [read] of the same handle
    starts at the end of the file and returns the empty string. *)
Lemma is_running_in_docker_value (w : World) (tr : list Event) :
  fst (is_running_in_docker w tr)
  = (path_exists w "/.dockerenv"
     || match file_content w "/proc/1/cgroup" with
        | Some content => PyStr.occurs_in "docker" content
        | None => false
        end).
Proof.
  unfold is_running_in_docker, bind, emit, ret.
  destruct (path_exists w "/.dockerenv"); [reflexivity|].
  destruct (file_content w "/proc/1/cgroup") as [content|]; [|reflexivity].
  unfold FileHandle.read, FileHandle.open.
  destruct (PyStr.occurs_in "docker" content); reflexivity.
Qed.

Lemma get_docker_host_ip_appends (w : World) :
  appends is_resolver (get_docker_host_ip w).
Proof.
  unfold get_docker_host_ip.
  apply appends_bind; [now apply appends_emit|]. intros _.
  destruct (gethostbyname w "host.docker.internal"); apply appends_ret.
Qed.

Lemma get_ip_linux_appends (w : World) : appends is_resolver (get_ip_linux w).
Proof.
  unfold get_ip_linux.
  apply appends_bind; [now apply appends_emit|]. intros _.
  destruct (run_command w IpRouteGet) as [out|]; [|apply appends_ret].
  destruct (scan_route (PyStr.split LF out)); try apply appends_ret.
  apply appends_bind; [now apply appends_emit|]. intros _.
  destruct (run_command w IpAddrShow); apply appends_ret.
Qed.

Lemma get_ip_macos_appends (w : World) : appends is_resolver (get_ip_macos w).
Proof.
  unfold get_ip_macos.
  apply appends_bind; [now apply appends_emit|]. intros _.
  destruct (run_command w Ifconfig); apply appends_ret.
Qed.

Lemma get_ethernet_ip_appends (w : World) :
  appends is_resolver (get_ethernet_ip w).
Proof.
  unfold get_ethernet_ip.
  apply appends_bind.
  - eapply appends_weaken; [|apply is_running_in_docker_appends].
    intros [] H; simpl in *; congruence.
  - intros [|]; [apply get_docker_host_ip_appends|].
    apply appends_bind; [apply get_ip_linux_appends|]. intros a.
    apply appends_bind.
    + destruct (truthy a); [apply appends_ret | apply get_ip_macos_appends].
    + intros ip. destruct (truthy ip); apply appends_ret.
Qed.

(** Every address returned by one of the three parsing loops passed the
    loopback and link-local test. *)
Lemma scan_route_filtered (lines : list string) (ip : string) :
  scan_route lines = ScanReturn ip -> not_loopback_or_link_local ip = true.
Proof.
  induction lines as [|line rest IH]; cbn [scan_route]; [discriminate|].
  destruct (PyStr.occurs_in "src" line); [|exact IH].
  destruct (PyStr.index "src" (PyStr.split_ws line)) as [i|]; [|discriminate].
  destruct (i + 1 <? List.length (PyStr.split_ws line)); [|exact IH].
  destruct (not_loopback_or_link_local
              (nth (i + 1) (PyStr.split_ws line) EmptyString)) eqn:E;
    [|exact IH].
  intros [= <-]. exact E.
Qed.

Lemma scan_addr_filtered (lines : list string) (ip : string) :
  scan_addr lines = Some ip -> not_loopback_or_link_local ip = true.
Proof.
  induction lines as [|line rest IH]; cbn [scan_addr]; [discriminate|].
  destruct (PyStr.startswith (PyStr.strip line) "inet "
            && PyStr.occurs_in "scope global" (PyStr.strip line)); [|exact IH].
  destruct (2 <=? List.length (PyStr.split_ws (PyStr.strip line))); [|exact IH].
  destruct (not_loopback_or_link_local (hd _ _)) eqn:E; [|exact IH].
  intros [= <-]. exact E.
Qed.

Lemma scan_ifconfig_filtered (lines : list string) (cur : option string)
    (ip : string) :
  scan_ifconfig cur lines = Some ip -> not_loopback_or_link_local ip = true.
Proof.
  revert cur. induction lines as [|line rest IH]; intros cur;
    cbn [scan_ifconfig]; [discriminate|].
  destruct (PyStr.startswith (PyStr.strip line) "en"); [apply IH|].
  destruct (_ && _ && _); [|apply IH].
  destruct (2 <=? List.length (PyStr.split_ws (PyStr.strip line))); [|apply IH].
  destruct (not_loopback_or_link_local (nth _ _ _)) eqn:E; [|apply IH].
  intros [= <-]. exact E.
Qed.

Lemma get_ip_linux_filtered (w : World) (tr : list Event) (ip : string) :
  fst (get_ip_linux w tr) = Some ip -> not_loopback_or_link_local ip = true.
Proof.
  unfold get_ip_linux, bind, emit, ret.
  destruct (run_command w IpRouteGet) as [out|]; [|discriminate].
  destruct (scan_route (PyStr.split LF out)) eqn:E; simpl.
  - intros [= <-]. eapply scan_route_filtered; eassumption.
  - discriminate.
  - destruct (run_command w IpAddrShow) as [out2|]; [|discriminate].
    simpl. apply scan_addr_filtered.
Qed.

Lemma get_ip_macos_filtered (w : World) (tr : list Event) (ip : string) :
  fst (get_ip_macos w tr) = Some ip -> not_loopback_or_link_local ip = true.
Proof.
  unfold get_ip_macos, bind, emit, ret.
  destruct (run_command w Ifconfig) as [out|]; [|discriminate].
  simpl. apply scan_ifconfig_filtered.
Qed.

(** Outside a container the resolver only returns addresses that passed
    the loopback and link-local test. *)
Lemma get_ethernet_ip_host_filtered (w : World) (tr : list Event) (ip : string) :
  fst (is_running_in_docker w tr) = false ->
  fst (get_ethernet_ip w tr) = Some ip ->
  PyStr.startswith ip "127." = false /\ PyStr.startswith ip "169.254." = false.
Proof.
  intros Hd. unfold get_ethernet_ip, bind at 1.
  destruct (is_running_in_docker w tr) as [d tr1]. simpl in Hd. subst d.
  unfold bind. destruct (get_ip_linux w tr1) as [a tr2] eqn:El.
  assert (Hl : forall x, a = Some x -> not_loopback_or_link_local x = true).
  { intros x ->. apply (get_ip_linux_filtered w tr1). now rewrite El. }
  intros H.
  assert (Hf : not_loopback_or_link_local ip = true).
  { destruct (truthy a) eqn:Ta.
    - unfold ret in H. rewrite Ta in H. simpl in H. auto.
    - destruct (get_ip_macos w tr2) as [b tr3] eqn:Em.
      destruct (truthy b); simpl in H; [|discriminate].
      apply (get_ip_macos_filtered w tr2). now rewrite Em. }
  unfold not_loopback_or_link_local in Hf.
  apply andb_prop in Hf as [H1 H2].
  now rewrite negb_true_iff in H1, H2.
Qed.

(** C1, at a failing input.  In a container whose host-gateway name
    resolves to 127.0.0.1, [get_ethernet_ip] returns ["127.0.0.1"], which
    starts with ["127."]: the containerized path returns the resolved
    address without the loopback and link-local test that the three parsing
    loops of the other path apply ([get_ethernet_ip_host_filtered]). *)
Theorem get_ethernet_ip_container_unfiltered :
  fst (is_running_in_docker loopback_gateway_world []) = true
  /\ fst (get_ethernet_ip loopback_gateway_world []) = Some "127.0.0.1"
  /\ PyStr.startswith "127.0.0.1" "127." = true.
Proof. repeat split. Qed.

(** C2, at a failing input.  With no marker file and a control-group
    record that contains ["containerd"] and not ["docker"],
    [is_running_in_docker] returns [False]: the test for ["containerd"]
    reads the file a second time through the same handle and gets the empty
    string. *)
Theorem is_running_in_docker_misses_containerd :
  path_exists containerd_world "/.dockerenv" = false
  /\ file_content containerd_world "/proc/1/cgroup"
     = Some "0::/system.slice/containerd.service"
  /\ PyStr.occurs_in "containerd" "0::/system.slice/containerd.service" = true
  /\ PyStr.occurs_in "docker" "0::/system.slice/containerd.service" = false
  /\ fst (is_running_in_docker containerd_world []) = false.
Proof. repeat split. Qed.

Lemma container_path_failure (w : World) (tr : list Event) :
  fst (is_running_in_docker w tr) = true ->
  gethostbyname w "host.docker.internal" = None ->
  exists evs,
    get_ethernet_ip w tr = (None, tr ++ evs)
    /\ forallb is_container_path evs = true.
Proof.
  intros Hd Hg. unfold get_ethernet_ip, bind.
  destruct (is_running_in_docker_appends w tr) as (e1 & E1 & F1).
  destruct (is_running_in_docker w tr) as [d tr1].
  simpl in Hd, E1. subst d tr1.
  unfold get_docker_host_ip, bind, emit, ret. rewrite Hg.
  exists (e1 ++ [EvResolve "host.docker.internal"]).
  rewrite app_assoc. split; [reflexivity|].
  rewrite forallb_app. simpl. rewrite andb_true_r.
  rewrite forallb_forall in *. intros e He.
  specialize (F1 e He). destruct e; simpl in *; congruence.
Qed.

(** C3.  When the process is detected as running in a container and the
    host-gateway name does not resolve, [get_ethernet_ip] returns no address
    after the detection and the one resolution attempt only: no command of
    the other path is run.  [update_dns_rewrite] then returns [False], and
    its trace has no command, no call to the store and no per-hostname
    processing. *)
Theorem container_resolution_failure_is_final
    (cfg : Config) (w : World) (tr : list Event) :
  fst (is_running_in_docker w tr) = true ->
  gethostbyname w "host.docker.internal" = None ->
  (exists evs,
     get_ethernet_ip w tr = (None, tr ++ evs)
     /\ existsb is_fallback evs = false)
  /\ (exists evs,
        update_dns_rewrite cfg w tr = (false, tr ++ evs)
        /\ existsb is_fallback evs = false
        /\ existsb is_remote evs = false
        /\ existsb is_processing evs = false).
Proof.
  intros Hd Hg.
  destruct (container_path_failure w tr Hd Hg) as (evs & E & F).
  assert (Hfb : existsb is_fallback evs = false)
    by (eapply none_of_class; [|exact F]; intros []; simpl; congruence).
  assert (Hrm : existsb is_remote evs = false)
    by (eapply none_of_class; [|exact F]; intros []; simpl; congruence).
  assert (Hpr : existsb is_processing evs = false)
    by (eapply none_of_class; [|exact F]; intros []; simpl; congruence).
  split; [exists evs; auto|].
  unfold update_dns_rewrite.
  destruct (negb (truthy (ADGUARD_USERNAME cfg))
            || negb (truthy (ADGUARD_PASSWORD cfg))).
  { exists []. unfold ret. rewrite app_nil_r. auto. }
  destruct (parse_hostnames cfg) as [|h hs].
  { exists []. unfold ret. rewrite app_nil_r. auto. }
  unfold bind. rewrite E. exists evs. auto.
Qed.

Lemma container_resolution_failure_is_final_witness :
  (exists evs,
     get_ethernet_ip unresolvable_gateway_world [] = (None, [] ++ evs)
     /\ existsb is_fallback evs = false)
  /\ (exists evs,
        update_dns_rewrite sample_config unresolvable_gateway_world []
        = (false, [] ++ evs)
        /\ existsb is_fallback evs = false
        /\ existsb is_remote evs = false
        /\ existsb is_processing evs = false).
Proof.
  apply (container_resolution_failure_is_final
           sample_config unresolvable_gateway_world []); reflexivity.
Defined.

(** ** Rewrite reconciler *)

Lemma py_eq_true (x : option string) (s : string) :
  py_eq x s = true <-> x = Some s.
Proof.
  destruct x as [t|]; simpl.
  - rewrite String.eqb_eq. split; congruence.
  - split; discriminate.
Qed.

(** The loop over the snapshot stops at the first rule for the hostname. *)
Lemma scan_rewrites_current (w : World) (h ip : string)
    (snap : list Rewrite) (r : Rewrite) (tr : list Event) :
  first_match h snap = Some r -> py_eq (answer r) ip = true ->
  scan_rewrites w h ip snap tr = (Some true, tr).
Proof.
  unfold first_match. induction snap as [|x rest IH]; simpl; [discriminate|].
  destruct (py_eq (domain x) h); [|exact IH].
  intros [= ->] ->. reflexivity.
Qed.

Lemma scan_rewrites_stale (w : World) (h ip : string)
    (snap : list Rewrite) (r : Rewrite) (tr : list Event) :
  first_match h snap = Some r -> py_eq (answer r) ip = false ->
  scan_rewrites w h ip snap tr
  = (if http_delete w tr h then None else Some false,
     tr ++ [EvDelete h (http_delete w tr h)]).
Proof.
  unfold first_match. induction snap as [|x rest IH]; simpl; [discriminate|].
  destruct (py_eq (domain x) h); [|exact IH].
  intros [= ->] ->.
  unfold bind, delete_existing_rewrite, ret.
  destruct (http_delete w tr h); reflexivity.
Qed.

Lemma scan_rewrites_absent (w : World) (h ip : string)
    (snap : list Rewrite) (tr : list Event) :
  first_match h snap = None ->
  scan_rewrites w h ip snap tr = (None, tr).
Proof.
  unfold first_match. induction snap as [|x rest IH]; simpl; [reflexivity|].
  destruct (py_eq (domain x) h); [discriminate | exact IH].
Qed.

(** C4.  For a valid hostname whose first rule in the snapshot has another
    answer than the target address, [process_hostname] issues one delete
    for that domain.  If the delete fails the result is [False] and nothing
    else is called; if it succeeds one create follows it, and the result is
    the result of the create. *)
Theorem process_hostname_replaces_stale_rule (w : World) (h ip : string)
    (snap : list Rewrite) (r : Rewrite) (tr : list Event) :
  validate_hostname h = true ->
  first_match h snap = Some r ->
  py_eq (answer r) ip = false ->
  let tr1 := tr ++ [EvProcess h] in
  let tr2 := tr1 ++ [EvDelete h true] in
  (http_delete w tr1 h = false ->
   process_hostname w h ip snap tr = (false, tr1 ++ [EvDelete h false]))
  /\ (http_delete w tr1 h = true ->
      process_hostname w h ip snap tr
      = (http_add w tr2 h ip, tr2 ++ [EvAdd h ip (http_add w tr2 h ip)])).
Proof.
  intros Hv Hm Ha tr1 tr2.
  unfold process_hostname, bind, emit. rewrite Hv. cbn [negb].
  fold tr1. rewrite (scan_rewrites_stale w h ip snap r tr1 Hm Ha).
  split; intros Hd; rewrite Hd; reflexivity.
Qed.

Lemma process_hostname_replaces_stale_rule_witness :
  process_hostname sample_world "locked.local" "10.0.0.7"
    [mkRewrite (Some "locked.local") (Some "10.0.0.3")] []
  = (false, [EvProcess "locked.local"; EvDelete "locked.local" false])
  /\ process_hostname sample_world "old.local" "10.0.0.7" sample_snapshot []
     = (true, [EvProcess "old.local"; EvDelete "old.local" true;
               EvAdd "old.local" "10.0.0.7" true]).
Proof.
  split.
  - apply (process_hostname_replaces_stale_rule
             sample_world "locked.local" "10.0.0.7"
             [mkRewrite (Some "locked.local") (Some "10.0.0.3")]
             (mkRewrite (Some "locked.local") (Some "10.0.0.3")) []);
      reflexivity.
  - apply (process_hostname_replaces_stale_rule
             sample_world "old.local" "10.0.0.7" sample_snapshot
             (mkRewrite (Some "old.local") (Some "10.0.0.3")) []);
      reflexivity.
Defined.

Lemma process_hostname_current (w : World) (h ip : string)
    (snap : list Rewrite) (tr : list Event) :
  already_satisfied snap ip h ->
  process_hostname w h ip snap tr = (true, tr ++ [EvProcess h]).
Proof.
  intros (Hv & r & Hm & Ha).
  unfold process_hostname, bind, emit. rewrite Hv. cbn [negb].
  rewrite (scan_rewrites_current w h ip snap r); [reflexivity | assumption |].
  now apply py_eq_true.
Qed.

Lemma process_all_current (w : World) (ip : string) (snap : list Rewrite)
    (hs : list string) (n : nat) (tr : list Event) :
  Forall (already_satisfied snap ip) hs ->
  process_all w ip snap hs n tr = (n + List.length hs, tr ++ map EvProcess hs).
Proof.
  revert n tr. induction hs as [|h rest IH]; intros n tr Hall.
  - simpl. unfold ret. now rewrite Nat.add_0_r, app_nil_r.
  - inversion Hall as [|? ? Hh Hrest]; subst.
    cbn [process_all]. unfold bind.
    rewrite (process_hostname_current w h ip snap tr Hh).
    rewrite (IH (n + 1) (tr ++ [EvProcess h]) Hrest).
    rewrite <- app_assoc. simpl. f_equal. lia.
Qed.

Lemma no_mutation_in_processing (hs : list string) :
  existsb is_mutation (map EvProcess hs) = false.
Proof. induction hs; simpl; auto. Qed.

(** ** The run *)

Lemma update_dns_rewrite_unfold (cfg : Config) (w : World) (tr : list Event) :
  truthy (ADGUARD_USERNAME cfg) = true ->
  truthy (ADGUARD_PASSWORD cfg) = true ->
  parse_hostnames cfg <> [] ->
  update_dns_rewrite cfg w tr
  = let (local_ip, tr1) := get_ethernet_ip w tr in
    if truthy local_ip then
      match local_ip, http_list w with
      | Some ip, Some rewrites =>
          let (success_count, tr2) :=
            process_all w ip rewrites (parse_hostnames cfg) 0 (tr1 ++ [EvList]) in
          (summary success_count (List.length (parse_hostnames cfg)), tr2)
      | _, _ => (false, tr1 ++ [EvList])
      end
    else (false, tr1).
Proof.
  intros Hu Hp Hh. unfold update_dns_rewrite. rewrite Hu, Hp. cbn [negb orb].
  destruct (parse_hostnames cfg) as [|h hs]; [congruence|].
  unfold bind. destruct (get_ethernet_ip w tr) as [[ip|] tr1]; [|reflexivity].
  cbn [truthy]. destruct (PyStr.nonempty ip); [|reflexivity].
  cbn [negb]. unfold get_existing_rewrites, bind, emit, ret.
  destruct (http_list w); reflexivity.
Qed.

(** Either the run stops before the resolver, with nothing called, or the
    credentials and at least one hostname are there. *)
Lemma fatal_errors_early (cfg : Config) (w : World) (tr : list Event) :
  update_dns_rewrite cfg w tr = (false, tr)
  \/ (truthy (ADGUARD_USERNAME cfg) = true
      /\ truthy (ADGUARD_PASSWORD cfg) = true
      /\ parse_hostnames cfg <> []).
Proof.
  unfold update_dns_rewrite.
  destruct (truthy (ADGUARD_USERNAME cfg)); [|now left].
  destruct (truthy (ADGUARD_PASSWORD cfg)); [|now left].
  destruct (parse_hostnames cfg); [now left|].
  right. repeat split; congruence.
Qed.

(** C9.  Each fatal error ends the run with [False] before any hostname
    is processed and before any delete or create: without credentials or
    without hostnames nothing at all is called; without an address the
    store is never called; when the list call fails only the resolver and
    the list call itself have run. *)
Theorem fatal_errors_abort_early (cfg : Config) (w : World) (tr : list Event) :
  (truthy (ADGUARD_USERNAME cfg) = false
   \/ truthy (ADGUARD_PASSWORD cfg) = false
   \/ parse_hostnames cfg = [] ->
   update_dns_rewrite cfg w tr = (false, tr))
  /\ (truthy (fst (get_ethernet_ip w tr)) = false ->
      exists evs,
        update_dns_rewrite cfg w tr = (false, tr ++ evs)
        /\ existsb is_remote evs = false
        /\ existsb is_processing evs = false)
  /\ (http_list w = None ->
      exists evs,
        update_dns_rewrite cfg w tr = (false, tr ++ evs)
        /\ existsb is_mutation evs = false
        /\ existsb is_processing evs = false).
Proof.
  assert (Early :
    truthy (ADGUARD_USERNAME cfg) = false
    \/ truthy (ADGUARD_PASSWORD cfg) = false
    \/ parse_hostnames cfg = [] ->
    update_dns_rewrite cfg w tr = (false, tr)).
  { unfold update_dns_rewrite. intros [H | [H | H]].
    - now rewrite H.
    - rewrite H, orb_true_r. reflexivity.
    - rewrite H. now destruct (_ || _). }
  assert (Nil : exists evs : list Event,
            (false, tr) = (false, tr ++ evs)
            /\ existsb is_remote evs = false
            /\ existsb is_mutation evs = false
            /\ existsb is_processing evs = false).
  { exists []. rewrite app_nil_r. auto. }
  split; [exact Early|].
  destruct (truthy (ADGUARD_USERNAME cfg)) eqn:Hu;
    [|rewrite Early by auto; destruct Nil as (e & ? & ? & ? & ?);
      split; intros _; exists e; auto].
  destruct (truthy (ADGUARD_PASSWORD cfg)) eqn:Hp;
    [|rewrite Early by auto; destruct Nil as (e & ? & ? & ? & ?);
      split; intros _; exists e; auto].
  destruct (parse_hostnames cfg) as [|h hs] eqn:Hh;
    [rewrite Early by auto; destruct Nil as (e & ? & ? & ? & ?);
     split; intros _; exists e; auto|].
  rewrite update_dns_rewrite_unfold by (rewrite ?Hh; congruence).
  destruct (get_ethernet_ip_appends w tr) as (e1 & E1 & F1).
  destruct (get_ethernet_ip w tr) as [x tr1]. simpl in E1. subst tr1.
  assert (R1 : existsb is_remote e1 = false)
    by (eapply none_of_class; [|exact F1]; intros []; simpl; congruence).
  assert (M1 : existsb is_mutation e1 = false)
    by (eapply none_of_class; [|exact F1]; intros []; simpl; congruence).
  assert (P1 : existsb is_processing e1 = false)
    by (eapply none_of_class; [|exact F1]; intros []; simpl; congruence).
  cbn [fst]. split.
  - intros Hx. rewrite Hx. exists e1. auto.
  - intros Hl. rewrite Hl. destruct (truthy x).
    + exists (e1 ++ [EvList]). rewrite app_assoc, !existsb_app, M1, P1.
      destruct x; auto.
    + exists e1. auto.
Qed.

Lemma fatal_errors_abort_early_witness :
  update_dns_rewrite no_password_config store_down_world [] = (false, [])
  /\ (exists evs,
        update_dns_rewrite sample_config empty_world [] = (false, [] ++ evs)
        /\ existsb is_remote evs = false
        /\ existsb is_processing evs = false)
  /\ (exists evs,
        update_dns_rewrite sample_config store_down_world [] = (false, [] ++ evs)
        /\ existsb is_mutation evs = false
        /\ existsb is_processing evs = false).
Proof.
  split; [|split].
  - apply (fatal_errors_abort_early no_password_config store_down_world []).
    right; left. reflexivity.
  - apply (fatal_errors_abort_early sample_config empty_world []).
    reflexivity.
  - apply (fatal_errors_abort_early sample_config store_down_world []).
    reflexivity.
Defined.

Example store_down_trace :
  update_dns_rewrite sample_config store_down_world []
  = (false, [EvExists "/.dockerenv"; EvOpen "/proc/1/cgroup";
             EvRun IpRouteGet; EvList]).
Proof. reflexivity. Qed.

Lemma process_all_counts (w : World) (ip : string) (snap : list Rewrite)
    (hs : list string) (n : nat) (tr : list Event) :
  fst (process_all w ip snap hs n tr)
  = n + count_occ bool_dec (outcomes w ip snap hs tr) true.
Proof.
  revert n tr. induction hs as [|h rest IH]; intros n tr.
  - simpl. lia.
  - cbn [process_all outcomes]. unfold bind.
    destruct (process_hostname w h ip snap tr) as [[|] tr1];
      rewrite IH; simpl; lia.
Qed.

Lemma outcomes_length (w : World) (ip : string) (snap : list Rewrite)
    (hs : list string) (tr : list Event) :
  List.length (outcomes w ip snap hs tr) = List.length hs.
Proof.
  revert tr. induction hs as [|h rest IH]; intros tr; [reflexivity|].
  cbn [outcomes]. destruct (process_hostname w h ip snap tr) as [ok tr1].
  simpl. now rewrite IH.
Qed.

Lemma summary_nonempty (success_count total_count : nat) :
  0 < total_count -> summary success_count total_count = (0 <? success_count).
Proof.
  intros Ht. unfold summary.
  destruct (Nat.eqb_spec success_count total_count) as [->|_].
  - symmetry. now apply Nat.ltb_lt.
  - now destruct (0 <? success_count).
Qed.

(** C6.  In a run that reaches the loop over the hostnames (credentials
    and at least one hostname configured, an address resolved, the snapshot
    fetched) every hostname gets a result, and the run returns [True]
    exactly when at least one of these results is [True]: it returns
    [False] only when every hostname failed. *)
Theorem run_succeeds_iff_one_hostname_succeeds (cfg : Config) (w : World)
    (tr tr1 : list Event) (ip : string) (snap : list Rewrite) :
  truthy (ADGUARD_USERNAME cfg) = true ->
  truthy (ADGUARD_PASSWORD cfg) = true ->
  parse_hostnames cfg <> [] ->
  get_ethernet_ip w tr = (Some ip, tr1) ->
  PyStr.nonempty ip = true ->
  http_list w = Some snap ->
  let results := outcomes w ip snap (parse_hostnames cfg) (tr1 ++ [EvList]) in
  List.length results = List.length (parse_hostnames cfg)
  /\ (fst (update_dns_rewrite cfg w tr) = true <-> In true results)
  /\ (fst (update_dns_rewrite cfg w tr) = false
      <-> count_occ bool_dec results true = 0).
Proof.
  intros Hu Hp Hh Hip Hne Hl results.
  assert (E : fst (update_dns_rewrite cfg w tr)
              = (0 <? count_occ bool_dec results true)).
  { rewrite update_dns_rewrite_unfold by assumption.
    rewrite Hip, Hl. cbn [truthy]. rewrite Hne.
    pose proof (process_all_counts w ip snap (parse_hostnames cfg) 0
                  (tr1 ++ [EvList])) as Hc.
    destruct (process_all w ip snap (parse_hostnames cfg) 0 (tr1 ++ [EvList]))
      as [c tr2]. cbn [fst] in *. subst c.
    apply summary_nonempty.
    destruct (parse_hostnames cfg); [congruence | simpl; lia]. }
  split; [apply outcomes_length|]. rewrite E. split.
  - rewrite Nat.ltb_lt. rewrite (count_occ_In bool_dec). reflexivity.
  - rewrite Nat.ltb_ge. lia.
Qed.

Lemma run_succeeds_iff_one_hostname_succeeds_witness :
  outcomes sample_world "10.0.0.7" sample_snapshot
    (parse_hostnames partial_config)
    ([EvExists "/.dockerenv"; EvOpen "/proc/1/cgroup"; EvRun IpRouteGet]
       ++ [EvList])
  = [true; false; true]
  /\ fst (update_dns_rewrite partial_config sample_world []) = true.
Proof.
  split; [reflexivity|].
  apply (run_succeeds_iff_one_hostname_succeeds partial_config sample_world
           [] [EvExists "/.dockerenv"; EvOpen "/proc/1/cgroup"; EvRun IpRouteGet]
           "10.0.0.7" sample_snapshot);
    try reflexivity; [discriminate | simpl; auto].
Defined.

(** A run in which every hostname is already satisfied calls the store
    for the list only. *)
Lemma update_dns_rewrite_current (cfg : Config) (w : World) (tr : list Event) :
  (forall ip snap,
     fst (get_ethernet_ip w tr) = Some ip -> http_list w = Some snap ->
     Forall (already_satisfied snap ip) (parse_hostnames cfg)) ->
  exists evs,
    snd (update_dns_rewrite cfg w tr) = tr ++ evs
    /\ existsb is_mutation evs = false.
Proof.
  intros Hall.
  assert (Nil : exists evs : list Event,
            tr = tr ++ evs /\ existsb is_mutation evs = false)
    by (exists []; now rewrite app_nil_r).
  destruct (fatal_errors_early cfg w tr) as [Early | (Hu & Hp & Hh)];
    [now rewrite Early|].
  rewrite update_dns_rewrite_unfold by assumption.
  destruct (get_ethernet_ip_appends w tr) as (e1 & E1 & F1).
  destruct (get_ethernet_ip w tr) as [x tr1]. cbn [fst snd] in *. subst tr1.
  assert (M1 : existsb is_mutation e1 = false)
    by (eapply none_of_class; [|exact F1]; intros []; simpl; congruence).
  destruct (truthy x); [|exists e1; auto].
  destruct x as [ip|]; [|exists (e1 ++ [EvList]);
    rewrite app_assoc, existsb_app, M1; auto].
  destruct (http_list w) as [snap|]; [|exists (e1 ++ [EvList]);
    rewrite app_assoc, existsb_app, M1; auto].
  rewrite process_all_current by auto. cbn [snd].
  exists (e1 ++ [EvList] ++ map EvProcess (parse_hostnames cfg)).
  rewrite !app_assoc, !existsb_app, M1, no_mutation_in_processing. auto.
Qed.

(** C5.  A valid hostname whose first rule in the snapshot already has the
    target address is a success without any call to the store.  A loop over
    hostnames that are all in this state counts every one of them as a
    success without a delete or a create, and so a run that finds them all
    in this state, as a second run with the same address does, makes no
    delete and no create call. *)
Theorem process_hostname_idempotent (cfg : Config) (w : World) (ip : string)
    (snap : list Rewrite) :
  (forall h tr,
     already_satisfied snap ip h ->
     process_hostname w h ip snap tr = (true, tr ++ [EvProcess h]))
  /\ (forall hs n tr,
        Forall (already_satisfied snap ip) hs ->
        process_all w ip snap hs n tr
        = (n + List.length hs, tr ++ map EvProcess hs)
        /\ existsb is_mutation (map EvProcess hs) = false)
  /\ (forall tr,
        fst (get_ethernet_ip w tr) = Some ip ->
        http_list w = Some snap ->
        Forall (already_satisfied snap ip) (parse_hostnames cfg) ->
        exists evs,
          snd (update_dns_rewrite cfg w tr) = tr ++ evs
          /\ existsb is_mutation evs = false).
Proof.
  split; [intros; now apply process_hostname_current|]. split.
  - intros hs n tr Hall. split.
    + now apply process_all_current.
    + apply no_mutation_in_processing.
  - intros tr Hip Hl Hall. apply update_dns_rewrite_current.
    intros ip' snap' Hip' Hl'.
    rewrite Hip in Hip'. rewrite Hl in Hl'.
    injection Hip' as <-. injection Hl' as <-. exact Hall.
Qed.

Lemma process_hostname_idempotent_witness :
  process_hostname sample_world "here.local" "10.0.0.7" sample_snapshot []
  = (true, [] ++ [EvProcess "here.local"])
  /\ (process_all sample_world "10.0.0.7" sample_snapshot
        ["here.local"; "here.local"] 0 []
      = (0 + 2, [] ++ map EvProcess ["here.local"; "here.local"])
      /\ existsb is_mutation (map EvProcess ["here.local"; "here.local"])
         = false)
  /\ (exists evs,
        snd (update_dns_rewrite settled_config sample_world []) = [] ++ evs
        /\ existsb is_mutation evs = false).
Proof.
  assert (H : already_satisfied sample_snapshot "10.0.0.7" "here.local").
  { split; [reflexivity|].
    exists (mkRewrite (Some "here.local") (Some "10.0.0.7")).
    split; reflexivity. }
  assert (H2 : Forall (already_satisfied sample_snapshot "10.0.0.7")
                 ["here.local"; "here.local"]).
  { apply Forall_cons; [exact H|]. apply Forall_cons; [exact H|].
    apply Forall_nil. }
  destruct (process_hostname_idempotent settled_config sample_world
              "10.0.0.7" sample_snapshot) as (P1 & P2 & P3).
  split; [|split].
  - apply P1. exact H.
  - apply P2. exact H2.
  - apply P3; [reflexivity | reflexivity | exact H2].
Defined.

(** Without [-h], [--help] or [--dry-run] the exit status of the process
    is 0 when [update_dns_rewrite] returns [True] and 1 otherwise. *)
Lemma main_exit_status (prog : string) (cfg : Config) (w : World)
    (tr : list Event) :
  fst (main [prog] cfg w tr)
  = if fst (update_dns_rewrite cfg w tr) then 0 else 1.
Proof.
  unfold main, bind, ret. simpl.
  destruct (update_dns_rewrite cfg w tr) as [[|] tr1]; reflexivity.
Qed.

(** * Further properties *)

(** ** Strings *)

Section MoreStringFacts.

Lemma all_chars_forall (P : ascii -> bool) (s : string) :
  PyStr.all_chars P s = true <-> (forall c, In c (PyStr.chars s) -> P c = true).
Proof.
  induction s as [|x t IH]; simpl.
  - split; [intros _ c [] | reflexivity].
  - rewrite andb_true_iff, IH. split.
    + intros [Hx Ht] c [<-|Hc]; auto.
    + intros H. split; [apply H | intros c Hc; apply H]; auto.
Qed.

Lemma nonempty_chars (s : string) :
  PyStr.nonempty s = true <-> exists c, In c (PyStr.chars s).
Proof.
  destruct s as [|x t]; simpl; split.
  - discriminate.
  - intros (c & []).
  - intros _. exists x. auto.
  - reflexivity.
Qed.

Lemma chars_remove_char (x c : ascii) (s : string) :
  In c (PyStr.chars (PyStr.remove_char x s)) <-> In c (PyStr.chars s) /\ c <> x.
Proof.
  induction s as [|y t IH]; simpl; [tauto|].
  destruct (Ascii.eqb_spec y x) as [->|Hy]; simpl; rewrite IH.
  - split; [tauto|]. intros [[<-|H] Hn]; [congruence | tauto].
  - split; [|tauto]. intros [<-|[H Hn]]; auto.
Qed.

(** No piece of a split holds the separator. *)
Lemma split_pieces_no_sep (sep : ascii) (s p : string) :
  In p (PyStr.split sep s) -> ~ In sep (PyStr.chars p).
Proof.
  revert p. induction s as [|x t IH]; intros p; simpl.
  - intros [<-|[]] [].
  - destruct (Ascii.eqb_spec x sep) as [->|Hx].
    + intros [<-|Hp]; [intros [] | now apply IH].
    + destruct (PyStr.split sep t) as [|q qs].
      * intros [<-|[]] [E|[]]. congruence.
      * intros [<-|Hp].
        -- intros [E|Hq]; [congruence|]. apply (IH q); simpl; auto.
        -- apply IH. simpl; auto.
Qed.

(** The characters of the pieces are characters of the string. *)
Lemma split_pieces_chars (sep c : ascii) (s p : string) :
  In p (PyStr.split sep s) -> In c (PyStr.chars p) -> In c (PyStr.chars s).
Proof.
  revert p. induction s as [|x t IH]; intros p; simpl.
  - intros [<-|[]] [].
  - destruct (Ascii.eqb_spec x sep) as [->|Hx].
    + intros [<-|Hp]; [intros [] | right; eapply IH; eassumption].
    + destruct (PyStr.split sep t) as [|q qs].
      * intros [<-|[]] [E|[]]. auto.
      * intros [<-|Hp].
        -- intros [E|Hq]; [auto|]. right. apply (IH q); simpl; auto.
        -- intros Hc. right. apply (IH p); simpl; auto.
Qed.

Lemma lstrip_head (s : string) :
  PyStr.lstrip s = EmptyString
  \/ exists c t, PyStr.lstrip s = String c t /\ PyStr.isspace_char c = false.
Proof.
  induction s as [|x t IH]; simpl; [auto|].
  destruct (PyStr.isspace_char x) eqn:E; [exact IH|].
  right. exists x, t. auto.
Qed.

Lemma rstrip_cons (c : ascii) (t : string) :
  PyStr.rstrip (String c t)
  = match PyStr.rstrip t with
    | EmptyString => if PyStr.isspace_char c then EmptyString
                     else String c EmptyString
    | r => String c r
    end.
Proof. reflexivity. Qed.

Lemma rstrip_idempotent (s : string) :
  PyStr.rstrip (PyStr.rstrip s) = PyStr.rstrip s.
Proof.
  induction s as [|x t IH]; [reflexivity|].
  rewrite rstrip_cons.
  destruct (PyStr.rstrip t) as [|y r] eqn:E.
  - destruct (PyStr.isspace_char x) eqn:Hx; [reflexivity|].
    rewrite rstrip_cons. simpl PyStr.rstrip. now rewrite Hx.
  - rewrite rstrip_cons, IH. reflexivity.
Qed.

Lemma rstrip_keeps_head (c : ascii) (t : string) :
  PyStr.isspace_char c = false ->
  exists r, PyStr.rstrip (String c t) = String c r.
Proof.
  intros Hc. rewrite rstrip_cons. destruct (PyStr.rstrip t) as [|y r].
  - rewrite Hc. eauto.
  - eauto.
Qed.

Lemma strip_idempotent (s : string) :
  PyStr.strip (PyStr.strip s) = PyStr.strip s.
Proof.
  unfold PyStr.strip.
  destruct (lstrip_head s) as [E | (c & t & E & Hc)]; rewrite E.
  - reflexivity.
  - destruct (rstrip_keeps_head c t Hc) as (r & Er).
    rewrite Er. cbn [PyStr.lstrip]. rewrite Hc, <- Er.
    apply rstrip_idempotent.
Qed.

Lemma lstrip_blank (s : string) :
  PyStr.all_chars PyStr.isspace_char s = true -> PyStr.lstrip s = EmptyString.
Proof.
  induction s as [|x t IH]; simpl; [reflexivity|].
  intros H. apply andb_prop in H as [Hx Ht]. rewrite Hx. auto.
Qed.

Lemma strip_blank (s : string) :
  PyStr.all_chars PyStr.isspace_char s = true -> PyStr.strip s = EmptyString.
Proof. intros H. unfold PyStr.strip. now rewrite lstrip_blank. Qed.

Lemma lstrip_split (s : string) :
  exists l, s = String.append l (PyStr.lstrip s)
            /\ PyStr.all_chars PyStr.isspace_char l = true.
Proof.
  induction s as [|x t (l & E & F)]; simpl.
  - exists EmptyString. auto.
  - destruct (PyStr.isspace_char x) eqn:Hx.
    + exists (String x l). simpl. rewrite Hx, F, <- E. auto.
    + exists EmptyString. auto.
Qed.

Lemma rstrip_split (s : string) :
  exists r, s = String.append (PyStr.rstrip s) r
            /\ PyStr.all_chars PyStr.isspace_char r = true.
Proof.
  induction s as [|x t (r & E & F)].
  - exists EmptyString. auto.
  - rewrite rstrip_cons. destruct (PyStr.rstrip t) as [|y u] eqn:Er.
    + simpl in E. subst t. destruct (PyStr.isspace_char x) eqn:Hx.
      * exists (String x r). simpl. rewrite Hx, F. auto.
      * exists r. auto.
    + exists r. simpl in *. rewrite <- E. auto.
Qed.

Lemma rstrip_last (s : string) (b : ascii) :
  last_char (PyStr.rstrip s) = Some b -> PyStr.isspace_char b = false.
Proof.
  induction s as [|x t IH]; [discriminate|].
  rewrite rstrip_cons. destruct (PyStr.rstrip t) as [|y u] eqn:Er.
  - destruct (PyStr.isspace_char x) eqn:Hx; simpl; [discriminate|].
    now intros [= <-].
  - exact IH.
Qed.

(** [strip] removes exactly the leading and the trailing whitespace. *)
Lemma strip_trimmed (s : string) : trimmed_of s (PyStr.strip s).
Proof.
  destruct (lstrip_split s) as (l & El & Fl).
  destruct (rstrip_split (PyStr.lstrip s)) as (r & Er & Fr).
  exists l, r. unfold PyStr.strip.
  split; [now rewrite <- Er|]. split; [exact Fl|]. split; [exact Fr|].
  intros a [Ha|Ha].
  - destruct (lstrip_head s) as [E | (c & t & E & Hc)]; rewrite E in Ha.
    + discriminate.
    + destruct (rstrip_keeps_head c t Hc) as (u & Eu). rewrite Eu in Ha.
      simpl in Ha. now injection Ha as <-.
  - eapply rstrip_last; eassumption.
Qed.

Lemma all_chars_app (P : ascii -> bool) (a b : string) :
  PyStr.all_chars P (String.append a b)
  = PyStr.all_chars P a && PyStr.all_chars P b.
Proof.
  induction a as [|x t IH]; simpl; [reflexivity|].
  now rewrite IH, andb_assoc.
Qed.

Lemma lstrip_app_blank (l x : string) :
  PyStr.all_chars PyStr.isspace_char l = true ->
  PyStr.lstrip (String.append l x) = PyStr.lstrip x.
Proof.
  induction l as [|c t IH]; simpl; [reflexivity|].
  intros H. apply andb_prop in H as [Hc Ht]. rewrite Hc. auto.
Qed.

Lemma rstrip_blank (r : string) :
  PyStr.all_chars PyStr.isspace_char r = true -> PyStr.rstrip r = EmptyString.
Proof.
  induction r as [|c t IH]; [reflexivity|]. simpl PyStr.all_chars.
  intros H. apply andb_prop in H as [Hc Ht].
  rewrite rstrip_cons, (IH Ht), Hc. reflexivity.
Qed.

Lemma rstrip_app_blank (t r : string) :
  PyStr.all_chars PyStr.isspace_char r = true ->
  PyStr.rstrip (String.append t r) = PyStr.rstrip t.
Proof.
  intros Hr. induction t as [|c u IH]; simpl String.append.
  - now apply rstrip_blank.
  - now rewrite !rstrip_cons, IH.
Qed.

Lemma rstrip_fixed (t : string) :
  (forall b, last_char t = Some b -> PyStr.isspace_char b = false) ->
  PyStr.rstrip t = t.
Proof.
  induction t as [|c u IH]; [reflexivity|]. intros H.
  rewrite rstrip_cons. destruct u as [|d v].
  - simpl. now rewrite (H c eq_refl).
  - rewrite IH by (intros b Hb; apply H; exact Hb). reflexivity.
Qed.

(** The trimmed form is unique: it is what [strip] returns. *)
Lemma trimmed_of_strip (e t : string) : trimmed_of e t -> PyStr.strip e = t.
Proof.
  intros (l & r & -> & Fl & Fr & Ht). unfold PyStr.strip.
  rewrite (lstrip_app_blank l _ Fl).
  destruct t as [|a u].
  - simpl String.append. rewrite (lstrip_blank r Fr). reflexivity.
  - simpl String.append. cbn [PyStr.lstrip].
    rewrite (Ht a) by (left; reflexivity).
    change (String a (String.append u r))
      with (String.append (String a u) r).
    rewrite (rstrip_app_blank _ r Fr).
    apply rstrip_fixed. intros b Hb. apply Ht. now right.
Qed.

(** Joining the pieces of a split with the separator gives the string
    back. *)
Lemma split_join (sep : ascii) (s : string) :
  String.concat (String sep EmptyString) (PyStr.split sep s) = s.
Proof.
  induction s as [|x t IH]; [reflexivity|]. simpl PyStr.split.
  destruct (PyStr.split sep t) as [|q qs] eqn:E.
  { exfalso. eapply split_not_nil; eassumption. }
  destruct (Ascii.eqb_spec x sep) as [->|Hx].
  - change (String.concat (String sep EmptyString) (EmptyString :: q :: qs))
      with (String sep (String.concat (String sep EmptyString) (q :: qs))).
    now rewrite IH.
  - destruct qs as [|q' qs'].
    + simpl in *. now rewrite IH.
    + change (String.concat (String sep EmptyString) (String x q :: q' :: qs'))
        with (String x (String.concat (String sep EmptyString) (q :: q' :: qs'))).
      now rewrite IH.
Qed.

Lemma split_no_sep (sep : ascii) (p : string) :
  ~ In sep (PyStr.chars p) -> PyStr.split sep p = [p].
Proof.
  induction p as [|x t IH]; simpl; [reflexivity|]. intros H.
  destruct (Ascii.eqb_spec x sep) as [->|_]; [tauto|].
  rewrite IH by tauto. reflexivity.
Qed.

Lemma split_app_sep (sep : ascii) (p t : string) :
  ~ In sep (PyStr.chars p) ->
  PyStr.split sep (String.append p (String sep t)) = p :: PyStr.split sep t.
Proof.
  induction p as [|x u IH]; simpl; intros H.
  - now rewrite Ascii.eqb_refl.
  - destruct (Ascii.eqb_spec x sep) as [->|_]; [tauto|].
    rewrite IH by tauto. reflexivity.
Qed.

(** The pieces between the separators are determined by the string. *)
Lemma split_of_join (sep : ascii) (pieces : list string) :
  pieces <> [] ->
  (forall p, In p pieces -> ~ In sep (PyStr.chars p)) ->
  PyStr.split sep (String.concat (String sep EmptyString) pieces) = pieces.
Proof.
  induction pieces as [|p rest IH]; [congruence|]. intros _ H.
  destruct rest as [|q qs].
  - simpl. apply split_no_sep. apply H. now left.
  - change (String.concat (String sep EmptyString) (p :: q :: qs))
      with (String.append p
              (String sep (String.concat (String sep EmptyString) (q :: qs)))).
    rewrite split_app_sep by (apply H; now left).
    rewrite IH; [reflexivity | discriminate |].
    intros x Hx. apply H. now right.
Qed.

Lemma Forall2_trimmed_strip (pieces ts : list string) :
  Forall2 trimmed_of pieces ts -> ts = map PyStr.strip pieces.
Proof.
  induction 1 as [|e t pieces ts Ht _ IH]; [reflexivity|].
  simpl. now rewrite (trimmed_of_strip e t Ht), IH.
Qed.

End MoreStringFacts.

(** ** Hostname validation *)

Lemma label_ok_iff (p : string) :
  ~ In "."%char (PyStr.chars p) -> (label_ok p = true <-> valid_label p).
Proof.
  intros Hdot. unfold label_ok, valid_label.
  destruct p as [|x t] eqn:Ep.
  { simpl. split; [discriminate | intros [H _]; congruence]. }
  rewrite <- Ep in *. replace (PyStr.nonempty p) with true by (now subst).
  cbn [negb orb].
  destruct (Nat.ltb_spec 63 (String.length p)) as [Hl|Hl].
  { split; [discriminate | intros (_ & H & _); lia]. }
  destruct (PyStr.isalnum _) eqn:Ea; cbn [negb].
  - split; [intros _ | reflexivity].
    unfold PyStr.isalnum in Ea. apply andb_prop in Ea as [Hn Hall].
    rewrite nonempty_chars in Hn. rewrite all_chars_forall in Hall.
    destruct Hn as (c & Hc).
    split; [subst; discriminate|]. split; [assumption|]. split.
    + intros d Hd. destruct (Ascii.eqb_spec d "-"%char) as [->|Hh]; [auto|].
      left. apply Hall. rewrite !chars_remove_char.
      repeat split; try assumption. intros ->. contradiction.
    + exists c. split; [|now apply Hall].
      rewrite !chars_remove_char in Hc. tauto.
  - split; [discriminate|]. intros (_ & _ & Hall & (c & Hc & Hal)).
    exfalso. unfold PyStr.isalnum in Ea. apply andb_false_iff in Ea as [Hn|Hf].
    + assert (In c (PyStr.chars
                      (PyStr.remove_char "." (PyStr.remove_char "-" p)))) as Hin.
      { rewrite !chars_remove_char. repeat split; try assumption.
        - intros ->. discriminate.
        - intros ->. discriminate. }
      assert (PyStr.nonempty
                (PyStr.remove_char "." (PyStr.remove_char "-" p)) = true)
        by (apply nonempty_chars; eauto).
      congruence.
    + assert (PyStr.all_chars PyStr.isalnum_char
                (PyStr.remove_char "." (PyStr.remove_char "-" p)) = true).
      { apply all_chars_forall. intros d Hd. rewrite !chars_remove_char in Hd.
        destruct Hd as [[Hd Hh] _]. destruct (Hall d Hd); [assumption|].
        contradiction. }
      congruence.
Qed.

(** The labels of an accepted hostname. *)
Lemma validate_hostname_labels (h p : string) :
  validate_hostname h = true -> In p (PyStr.split "." h) -> valid_label p.
Proof.
  unfold validate_hostname.
  destruct (negb (PyStr.nonempty h) || (253 <? String.length h));
    [discriminate|].
  cbv zeta. destruct (List.length (PyStr.split "." h) <? 1); [discriminate|].
  rewrite forallb_forall. intros H Hp.
  apply label_ok_iff; [|now apply H].
  eapply split_pieces_no_sep; eassumption.
Qed.

(** X1.  [validate_hostname] returns [True] exactly for the non-empty
    strings of at most 253 characters all of whose dot-separated labels are
    non-empty, at most 63 characters long, made of alphanumeric characters
    and hyphens only, with at least one alphanumeric character each. *)
Theorem validate_hostname_iff (h : string) :
  validate_hostname h = true
  <-> h <> EmptyString
      /\ String.length h <= 253
      /\ (forall p, In p (PyStr.split "." h) -> valid_label p).
Proof.
  unfold validate_hostname.
  destruct h as [|x t] eqn:Eh.
  { simpl. split; [discriminate | intros [H _]; congruence]. }
  rewrite <- Eh. replace (PyStr.nonempty h) with true by (now subst).
  cbn [negb orb].
  destruct (Nat.ltb_spec 253 (String.length h)) as [Hl|Hl].
  { split; [discriminate | intros (_ & H & _); lia]. }
  cbv zeta.
  destruct (PyStr.split "." h) as [|q qs] eqn:Es.
  { exfalso. eapply split_not_nil; eassumption. }
  cbn [List.length Nat.ltb Nat.leb]. rewrite <- Es, forallb_forall.
  split.
  - intros H. split; [subst; discriminate|]. split; [assumption|].
    intros p Hp. apply label_ok_iff; [|now apply H].
    eapply split_pieces_no_sep; eassumption.
  - intros (_ & _ & H) p Hp. apply label_ok_iff; [|now apply H].
    eapply split_pieces_no_sep; eassumption.
Qed.



(** X3.  A hostname with a label made of hyphens only is refused, although
    all its characters are allowed ones. *)
Theorem validate_hostname_rejects_hyphen_label (h p : string) :
  In p (PyStr.split "." h) ->
  (forall c, In c (PyStr.chars p) -> c = "-"%char) ->
  validate_hostname h = false.
Proof.
  intros Hp Hall.
  destruct (validate_hostname h) eqn:Hv; [|reflexivity].
  destruct (validate_hostname_labels h p Hv Hp) as (_ & _ & _ & (c & Hc & Hal)).
  rewrite (Hall c Hc) in Hal. discriminate.
Qed.

Lemma validate_hostname_rejects_hyphen_label_witness :
  validate_hostname "a.--.local" = false.
Proof.
  apply (validate_hostname_rejects_hyphen_label "a.--.local" "--").
  - simpl; auto.
  - simpl. intros c [<-|[<-|[]]]; reflexivity.
Defined.

(** ** Configuration parsing *)

Lemma filter_all_false {A} (p : A -> bool) (l : list A) :
  (forall x, In x l -> p x = false) -> filter p l = [].
Proof.
  induction l as [|a l IH]; simpl; intros H; [reflexivity|].
  rewrite (H a) by auto. apply IH. auto.
Qed.

Lemma split_pieces_all (sep : ascii) (P : ascii -> bool) (s p : string) :
  (forall c, In c (PyStr.chars s) -> c = sep \/ P c = true) ->
  In p (PyStr.split sep s) -> PyStr.all_chars P p = true.
Proof.
  intros H Hp. apply all_chars_forall. intros c Hc.
  destruct (H c (split_pieces_chars sep c s p Hp Hc)) as [->|HP]; [|exact HP].
  exfalso. eapply split_pieces_no_sep; eassumption.
Qed.

Lemma Forall2_map_r {A B} (R : A -> B -> Prop) (f : A -> B) (l : list A) :
  (forall a, R a (f a)) -> Forall2 R l (map f l).
Proof. intros H. induction l; simpl; constructor; auto. Qed.

(** C8.  When [HOSTNAMES] is set and not empty, [parse_hostnames] returns
    its comma-separated entries, trimmed and without the empty ones,
    whatever the legacy [HOSTNAME] holds.  The entries are the pieces of
    the field between its commas; trimmed means without the whitespace
    characters at both ends; ["a.local, ,b.local"] gives
    [["a.local"; "b.local"]]. *)
Theorem parse_hostnames_ignores_legacy
    (host port legacy user pass : option string) (hs : string) :
  hs <> EmptyString ->
  parse_hostnames (mkConfig host port legacy (Some hs) user pass)
  = trimmed_entries hs
  /\ (forall legacy' : option string,
        parse_hostnames (mkConfig host port legacy' (Some hs) user pass)
        = parse_hostnames (mkConfig host port legacy (Some hs) user pass))
  /\ trimmed_entries "a.local, ,b.local" = ["a.local"; "b.local"]
  /\ (exists pieces ts,
        String.concat "," pieces = hs
        /\ (forall p, In p pieces -> ~ In ","%char (PyStr.chars p))
        /\ Forall2 trimmed_of pieces ts
        /\ parse_hostnames (mkConfig host port legacy (Some hs) user pass)
           = filter (fun t => negb (String.eqb t EmptyString)) ts)
  /\ (forall pieces ts,
        String.concat "," pieces = hs ->
        (forall p, In p pieces -> ~ In ","%char (PyStr.chars p)) ->
        Forall2 trimmed_of pieces ts ->
        parse_hostnames (mkConfig host port legacy (Some hs) user pass)
        = filter (fun t => negb (String.eqb t EmptyString)) ts).
Proof.
  intros Hne.
  assert (Code : parse_hostnames (mkConfig host port legacy (Some hs) user pass)
                 = filter (fun t => negb (String.eqb t EmptyString))
                     (map PyStr.strip (PyStr.split "," hs))).
  { rewrite parse_hostnames_HOSTNAMES by assumption.
    unfold trimmed_entries. apply filter_ext. intros [|c t]; reflexivity. }
  split; [|split; [|split; [|split]]].
  - now apply parse_hostnames_HOSTNAMES.
  - intros legacy'. now rewrite !parse_hostnames_HOSTNAMES.
  - reflexivity.
  - exists (PyStr.split "," hs), (map PyStr.strip (PyStr.split "," hs)).
    split; [apply (split_join "," hs)|].
    split; [intros p Hp; eapply split_pieces_no_sep; eassumption|].
    split; [apply Forall2_map_r, strip_trimmed | exact Code].
  - intros pieces ts Hjoin Hcomma Htrim.
    assert (Hp : pieces <> []) by (intros ->; simpl in Hjoin; congruence).
    rewrite Code, <- Hjoin, (split_of_join "," pieces Hp Hcomma).
    now rewrite (Forall2_trimmed_strip pieces ts Htrim).
Qed.

Lemma parse_hostnames_ignores_legacy_witness :
  "  a.local ,   , b.local  " <> EmptyString
  /\ parse_hostnames spaced_config = ["a.local"; "b.local"]
  /\ exists pieces ts,
       String.concat "," pieces = "  a.local ,   , b.local  "
       /\ (forall p, In p pieces -> ~ In ","%char (PyStr.chars p))
       /\ Forall2 trimmed_of pieces ts
       /\ parse_hostnames spaced_config
          = filter (fun t => negb (String.eqb t EmptyString)) ts.
Proof.
  split; [discriminate|].
  destruct (parse_hostnames_ignores_legacy
              (Some "192.168.1.2") (Some "80") (Some "old.local")
              (Some "admin") (Some "secret") "  a.local ,   , b.local  ")
    as (E & _ & _ & Hex & _); [discriminate|].
  split; [unfold spaced_config; rewrite E; reflexivity | exact Hex].
Defined.

(** X4.  Whatever the configuration, every hostname that
    [parse_hostnames] returns is non-empty, and neither its first nor its
    last character is a whitespace character. *)
Theorem parse_hostnames_entries_trimmed (cfg : Config) (h : string) :
  In h (parse_hostnames cfg) ->
  exists a b,
    first_char h = Some a /\ last_char h = Some b
    /\ PyStr.isspace_char a = false /\ PyStr.isspace_char b = false.
Proof.
  assert (Ends : forall e, PyStr.nonempty (PyStr.strip e) = true ->
            exists a b,
              first_char (PyStr.strip e) = Some a
              /\ last_char (PyStr.strip e) = Some b
              /\ PyStr.isspace_char a = false
              /\ PyStr.isspace_char b = false).
  { intros e Hne. destruct (strip_trimmed e) as (_ & _ & _ & _ & _ & Ht).
    destruct (PyStr.strip e) as [|a u]; [discriminate|].
    destruct (last_char (String a u)) as [b|] eqn:Eb.
    - exists a, b. repeat split; apply Ht; auto.
    - exfalso. clear -Eb. revert a Eb.
      induction u as [|c v IH]; intros a; simpl; [discriminate | apply IH]. }
  unfold parse_hostnames.
  destruct (truthy (HOSTNAMES cfg)).
  - destruct (HOSTNAMES cfg) as [hs|]; [|intros []].
    rewrite in_map_iff. intros (e & <- & He).
    apply filter_In in He as [_ Hne]. now apply Ends.
  - destruct (truthy (HOSTNAME cfg)); [|intros []].
    destruct (HOSTNAME cfg) as [l|]; [|intros []].
    destruct (PyStr.nonempty (PyStr.strip l)) eqn:Hne; [|intros []].
    intros [<-|[]]. now apply Ends.
Qed.

Lemma parse_hostnames_entries_trimmed_witness :
  exists a b,
    first_char "b.local" = Some a /\ last_char "b.local" = Some b
    /\ PyStr.isspace_char a = false /\ PyStr.isspace_char b = false.
Proof.
  apply (parse_hostnames_entries_trimmed spaced_config "b.local").
  simpl. auto.
Defined.

(** X5.  When [HOSTNAMES] is not empty but holds only whitespace and
    commas, [parse_hostnames] returns no hostname at all: the legacy
    [HOSTNAME] is not consulted. *)
Theorem parse_hostnames_blank_entries
    (host port legacy user pass : option string) (hs : string) :
  hs <> EmptyString ->
  (forall c, In c (PyStr.chars hs) ->
             c = ","%char \/ PyStr.isspace_char c = true) ->
  parse_hostnames (mkConfig host port legacy (Some hs) user pass) = [].
Proof.
  intros Hne Hblank. rewrite parse_hostnames_HOSTNAMES by assumption.
  unfold trimmed_entries. apply filter_all_false.
  intros x Hx. apply in_map_iff in Hx as (e & <- & He).
  rewrite strip_blank; [reflexivity|].
  eapply split_pieces_all; eassumption.
Qed.

Lemma parse_hostnames_blank_entries_witness : parse_hostnames blank_config = [].
Proof.
  apply (parse_hostnames_blank_entries
           (Some "192.168.1.2") (Some "80") (Some "old.local")
           (Some "admin") (Some "secret") " , ,").
  - discriminate.
  - simpl. intros c [<-|[<-|[<-|[<-|[]]]]]; auto.
Defined.

(** ** IP resolver *)

(** X6.  Detection of a container: with the marker file the answer is
    [True] and the control-group record is not opened; without the marker
    file, a record that cannot be read gives [False] rather than an error,
    and a record that contains ["docker"] gives [True]. *)
Theorem is_running_in_docker_signals (w : World) (tr : list Event) :
  (path_exists w "/.dockerenv" = true ->
   is_running_in_docker w tr = (true, tr ++ [EvExists "/.dockerenv"]))
  /\ (path_exists w "/.dockerenv" = false ->
      file_content w "/proc/1/cgroup" = None ->
      is_running_in_docker w tr
      = (false, (tr ++ [EvExists "/.dockerenv"]) ++ [EvOpen "/proc/1/cgroup"]))
  /\ (forall content,
        path_exists w "/.dockerenv" = false ->
        file_content w "/proc/1/cgroup" = Some content ->
        PyStr.occurs_in "docker" content = true ->
        is_running_in_docker w tr
        = (true, (tr ++ [EvExists "/.dockerenv"]) ++ [EvOpen "/proc/1/cgroup"])).
Proof.
  unfold is_running_in_docker, bind, emit, ret.
  split; [|split].
  - intros ->. reflexivity.
  - intros -> ->. reflexivity.
  - intros content -> -> H.
    unfold FileHandle.read, FileHandle.open. now rewrite H.
Qed.

Lemma is_running_in_docker_signals_witness :
  is_running_in_docker loopback_gateway_world []
  = (true, [] ++ [EvExists "/.dockerenv"])
  /\ is_running_in_docker empty_world []
     = (false, ([] ++ [EvExists "/.dockerenv"]) ++ [EvOpen "/proc/1/cgroup"])
  /\ is_running_in_docker docker_cgroup_world []
     = (true, ([] ++ [EvExists "/.dockerenv"]) ++ [EvOpen "/proc/1/cgroup"]).
Proof.
  split; [|split].
  - apply (is_running_in_docker_signals loopback_gateway_world []).
    reflexivity.
  - apply (is_running_in_docker_signals empty_world []); reflexivity.
  - apply (proj2 (proj2 (is_running_in_docker_signals docker_cgroup_world []))
             "12:pids:/docker/4f1c2e"); reflexivity.
Defined.

Lemma truthy_Some (x : option string) :
  truthy x = true -> exists s, x = Some s /\ PyStr.nonempty s = true.
Proof. destruct x as [s|]; simpl; [eauto | discriminate]. Qed.

(** What [get_ethernet_ip] returns outside a container is [None] or a
    non-empty string. *)
Lemma get_ethernet_ip_host_nonempty (w : World) (tr : list Event) (ip : string) :
  fst (is_running_in_docker w tr) = false ->
  fst (get_ethernet_ip w tr) = Some ip -> PyStr.nonempty ip = true.
Proof.
  intros Hd. unfold get_ethernet_ip, bind at 1.
  destruct (is_running_in_docker w tr) as [d tr1]. simpl in Hd. subst d.
  unfold bind. destruct (get_ip_linux w tr1) as [a tr2].
  destruct ((if truthy a then ret a else get_ip_macos w) tr2) as [b tr3].
  destruct (truthy b) eqn:Tb; simpl; [|discriminate].
  intros ->. exact Tb.
Qed.

(** X7.  Outside a container, an address returned by [get_ethernet_ip]
    is a non-empty string that starts neither with ["127."] nor with
    ["169.254."]. *)
Theorem get_ethernet_ip_host_result (w : World) (tr : list Event) (ip : string) :
  fst (is_running_in_docker w tr) = false ->
  fst (get_ethernet_ip w tr) = Some ip ->
  ip <> EmptyString
  /\ PyStr.startswith ip "127." = false
  /\ PyStr.startswith ip "169.254." = false.
Proof.
  intros Hd Hip. split.
  - intros ->. pose proof (get_ethernet_ip_host_nonempty w tr _ Hd Hip).
    discriminate.
  - eapply get_ethernet_ip_host_filtered; eassumption.
Qed.

Lemma get_ethernet_ip_host_result_witness :
  "10.0.0.7" <> EmptyString
  /\ PyStr.startswith "10.0.0.7" "127." = false
  /\ PyStr.startswith "10.0.0.7" "169.254." = false.
Proof.
  apply (get_ethernet_ip_host_result sample_world [] "10.0.0.7"); reflexivity.
Defined.

Lemma get_ip_linux_appends_run (w : World) : appends is_fallback (get_ip_linux w).
Proof.
  unfold get_ip_linux.
  apply appends_bind; [now apply appends_emit|]. intros _.
  destruct (run_command w IpRouteGet) as [out|]; [|apply appends_ret].
  destruct (scan_route (PyStr.split LF out)); try apply appends_ret.
  apply appends_bind; [now apply appends_emit|]. intros _.
  destruct (run_command w IpAddrShow); apply appends_ret.
Qed.

Lemma get_ip_macos_appends_run (w : World) : appends is_fallback (get_ip_macos w).
Proof.
  unfold get_ip_macos.
  apply appends_bind; [now apply appends_emit|]. intros _.
  destruct (run_command w Ifconfig); apply appends_ret.
Qed.

(** X8.  The two paths of [get_ethernet_ip] exclude each other.  In a
    container the result is what resolving [host.docker.internal] gives
    (nothing when it fails) and no command is run; outside a container the
    name is never resolved, only commands are run. *)
Theorem get_ethernet_ip_paths (w : World) (tr : list Event) :
  (fst (is_running_in_docker w tr) = true ->
   exists evs,
     get_ethernet_ip w tr
     = (gethostbyname w "host.docker.internal", tr ++ evs)
     /\ forallb is_container_path evs = true)
  /\ (fst (is_running_in_docker w tr) = false ->
      exists evs,
        snd (get_ethernet_ip w tr) = tr ++ evs
        /\ forallb is_host_path evs = true).
Proof.
  split; intros Hd.
  - unfold get_ethernet_ip, bind.
    destruct (is_running_in_docker_appends w tr) as (e1 & E1 & F1).
    destruct (is_running_in_docker w tr) as [d tr1].
    simpl in Hd, E1. subst d tr1.
    exists (e1 ++ [EvResolve "host.docker.internal"]). split.
    + unfold get_docker_host_ip, bind, emit, ret. rewrite app_assoc.
      destruct (gethostbyname w "host.docker.internal"); reflexivity.
    + rewrite forallb_app. simpl. rewrite andb_true_r.
      rewrite forallb_forall in *. intros e He.
      specialize (F1 e He). destruct e; simpl in *; congruence.
  - assert (A : appends is_host_path
                  (a <- get_ip_linux w ;;
                   ip <- (if truthy a then ret a else get_ip_macos w) ;;
                   if truthy ip then ret ip else ret None)).
    { apply appends_bind.
      - eapply appends_weaken; [|apply get_ip_linux_appends_run].
        intros []; simpl; congruence.
      - intros a. apply appends_bind.
        + destruct (truthy a); [apply appends_ret|].
          eapply appends_weaken; [|apply get_ip_macos_appends_run].
          intros []; simpl; congruence.
        + intros ip. destruct (truthy ip); apply appends_ret. }
    unfold get_ethernet_ip. unfold bind at 1.
    destruct (is_running_in_docker_appends w tr) as (e1 & E1 & F1).
    destruct (is_running_in_docker w tr) as [d tr1].
    simpl in Hd, E1. subst d tr1.
    destruct (A (tr ++ e1)) as (e2 & E2 & F2).
    exists (e1 ++ e2). rewrite E2, app_assoc, forallb_app, F2, andb_true_r.
    split; [reflexivity|].
    rewrite forallb_forall in *. intros e He.
    specialize (F1 e He). destruct e; simpl in *; congruence.
Qed.

Lemma get_ethernet_ip_paths_witness :
  (exists evs,
     get_ethernet_ip docker_cgroup_world []
     = (gethostbyname docker_cgroup_world "host.docker.internal", [] ++ evs)
     /\ forallb is_container_path evs = true)
  /\ (exists evs,
        snd (get_ethernet_ip sample_world []) = [] ++ evs
        /\ forallb is_host_path evs = true).
Proof.
  split.
  - apply (get_ethernet_ip_paths docker_cgroup_world []). reflexivity.
  - apply (get_ethernet_ip_paths sample_world []). reflexivity.
Defined.

(** The words of [s.split()] are never empty. *)
Lemma split_ws_from_nonempty (s : string) (cur : option string) :
  (forall w, cur = Some w -> w <> EmptyString) ->
  Forall (fun t => t <> EmptyString) (PyStr.split_ws_from cur s).
Proof.
  revert cur. induction s as [|c t IH]; intros cur Hcur; simpl.
  - destruct cur as [w|]; [|constructor].
    constructor; [now apply Hcur | constructor].
  - destruct (PyStr.isspace_char c).
    + destruct cur as [w|].
      * constructor; [now apply Hcur|]. apply IH. discriminate.
      * apply IH. discriminate.
    + destruct cur as [w|]; apply IH; intros w' [= <-].
      * destruct w; discriminate.
      * discriminate.
Qed.

Lemma scan_route_nonempty (lines : list string) (ip : string) :
  scan_route lines = ScanReturn ip -> PyStr.nonempty ip = true.
Proof.
  induction lines as [|line rest IH]; cbn [scan_route]; [discriminate|].
  destruct (PyStr.occurs_in "src" line); [|exact IH].
  destruct (PyStr.index "src" (PyStr.split_ws line)) as [i|]; [|discriminate].
  destruct (Nat.ltb_spec (i + 1) (List.length (PyStr.split_ws line)))
    as [Hlt|_]; [|exact IH].
  destruct (not_loopback_or_link_local
              (nth (i + 1) (PyStr.split_ws line) EmptyString)); [|exact IH].
  intros [= <-].
  pose proof (split_ws_from_nonempty line None) as Hne.
  rewrite Forall_forall in Hne.
  specialize (Hne ltac:(discriminate) _
                (nth_In (PyStr.split_ws line) EmptyString Hlt)).
  destruct (nth (i + 1) (PyStr.split_ws line) EmptyString);
    [congruence | reflexivity].
Qed.

(** X9.  Outside a container, when [ip route get 8.8.8.8] prints a source
    address that is neither loopback nor link-local, that address is the
    result of [get_ethernet_ip], and neither [ip addr show] nor [ifconfig]
    is run. *)
Theorem route_source_address_wins (w : World) (tr : list Event)
    (out ip : string) :
  fst (is_running_in_docker w tr) = false ->
  run_command w IpRouteGet = Some out ->
  scan_route (PyStr.split LF out) = ScanReturn ip ->
  get_ethernet_ip w tr
  = (Some ip, snd (is_running_in_docker w tr) ++ [EvRun IpRouteGet]).
Proof.
  intros Hd Hout Hscan. unfold get_ethernet_ip, bind at 1.
  destruct (is_running_in_docker w tr) as [d tr1]. simpl in Hd. subst d.
  cbn [snd].
  assert (El : get_ip_linux w tr1 = (Some ip, tr1 ++ [EvRun IpRouteGet])).
  { unfold get_ip_linux, bind, emit, ret. now rewrite Hout, Hscan. }
  unfold bind. rewrite El. cbn [truthy].
  rewrite (scan_route_nonempty _ _ Hscan). unfold ret. cbn [truthy].
  now rewrite (scan_route_nonempty _ _ Hscan).
Qed.

Lemma route_source_address_wins_witness :
  get_ethernet_ip sample_world []
  = (Some "10.0.0.7",
     snd (is_running_in_docker sample_world []) ++ [EvRun IpRouteGet]).
Proof.
  apply (route_source_address_wins sample_world []
           "8.8.8.8 via 10.0.0.1 dev eth0 src 10.0.0.7 uid 0" "10.0.0.7");
    reflexivity.
Defined.

Lemma index_absent (x : string) (l : list string) :
  ~ In x l -> PyStr.index x l = None.
Proof.
  induction l as [|y l IH]; simpl; [reflexivity|].
  intros H. destruct (String.eqb_spec y x) as [->|_]; [tauto|].
  rewrite IH; [reflexivity | tauto].
Qed.

Lemma scan_route_skip (pre rest : list string) :
  Forall (fun l => PyStr.occurs_in "src" l = false) pre ->
  scan_route (pre ++ rest) = scan_route rest.
Proof.
  induction 1 as [|l pre Hl _ IH]; [reflexivity|].
  cbn [app scan_route]. now rewrite Hl.
Qed.

(** X10.  When the first line of the [ip route get] output that contains
    ["src"] has it only inside longer words, [get_ip_linux] gives up with
    no address: the search for the word fails, and [ip addr show] is not
    tried. *)
Theorem get_ip_linux_src_inside_word (w : World) (tr : list Event)
    (out line : string) (pre post : list string) :
  run_command w IpRouteGet = Some out ->
  PyStr.split LF out = pre ++ line :: post ->
  Forall (fun l => PyStr.occurs_in "src" l = false) pre ->
  PyStr.occurs_in "src" line = true ->
  ~ In "src" (PyStr.split_ws line) ->
  get_ip_linux w tr = (None, tr ++ [EvRun IpRouteGet]).
Proof.
  intros Hout Hsplit Hpre Hsub Hword.
  unfold get_ip_linux, bind, emit, ret. rewrite Hout, Hsplit.
  rewrite (scan_route_skip pre _ Hpre). cbn [scan_route].
  rewrite Hsub, (index_absent _ _ Hword). reflexivity.
Qed.

Lemma get_ip_linux_src_inside_word_witness :
  get_ip_linux odd_route_world [] = (None, [] ++ [EvRun IpRouteGet]).
Proof.
  apply (get_ip_linux_src_inside_word odd_route_world []
           "8.8.8.8 dev eth0 srcaddr 10.0.0.7"
           "8.8.8.8 dev eth0 srcaddr 10.0.0.7" [] []);
    try reflexivity.
  - constructor.
  - simpl. intros H.
    repeat (destruct H as [H|H]; [discriminate|]). exact H.
Defined.

Lemma split_head_no_sep (sep : ascii) (s : string) :
  ~ In sep (PyStr.chars (hd EmptyString (PyStr.split sep s))).
Proof.
  apply (split_pieces_no_sep sep s).
  destruct (PyStr.split sep s) as [|q qs] eqn:E; [|simpl; auto].
  exfalso. eapply split_not_nil; eassumption.
Qed.

Lemma scan_addr_no_slash (lines : list string) (ip : string) :
  scan_addr lines = Some ip -> ~ In "/"%char (PyStr.chars ip).
Proof.
  induction lines as [|line rest IH]; cbn [scan_addr]; [discriminate|].
  destruct (PyStr.startswith (PyStr.strip line) "inet "
            && PyStr.occurs_in "scope global" (PyStr.strip line)); [|exact IH].
  destruct (2 <=? List.length (PyStr.split_ws (PyStr.strip line))); [|exact IH].
  destruct (not_loopback_or_link_local (hd _ _)); [|exact IH].
  intros [= <-]. apply split_head_no_sep.
Qed.

(** X11.  When [ip route get] succeeds without giving an address,
    [get_ip_linux] runs [ip addr show] next, and an address it takes from
    there carries no prefix length (no ["/"]) and passed the loopback and
    link-local test. *)
Theorem get_ip_linux_addr_fallback (w : World) (tr : list Event) (out : string) :
  run_command w IpRouteGet = Some out ->
  scan_route (PyStr.split LF out) = ScanDone ->
  exists r,
    get_ip_linux w tr
    = (r, (tr ++ [EvRun IpRouteGet]) ++ [EvRun IpAddrShow])
    /\ forall ip, r = Some ip ->
                  ~ In "/"%char (PyStr.chars ip)
                  /\ not_loopback_or_link_local ip = true.
Proof.
  intros Hout Hscan. unfold get_ip_linux, bind, emit, ret.
  rewrite Hout, Hscan.
  destruct (run_command w IpAddrShow) as [out2|].
  - eexists. split; [reflexivity|]. intros ip Hip. split.
    + eapply scan_addr_no_slash; eassumption.
    + eapply scan_addr_filtered; eassumption.
  - eexists. split; [reflexivity|]. discriminate.
Qed.

Lemma get_ip_linux_addr_fallback_witness :
  exists r,
    get_ip_linux addr_only_world []
    = (r, ([] ++ [EvRun IpRouteGet]) ++ [EvRun IpAddrShow])
    /\ forall ip, r = Some ip ->
                  ~ In "/"%char (PyStr.chars ip)
                  /\ not_loopback_or_link_local ip = true.
Proof.
  apply (get_ip_linux_addr_fallback addr_only_world [] "unreachable");
    reflexivity.
Defined.

Example addr_only_result :
  fst (get_ip_linux addr_only_world []) = Some "10.0.0.7".
Proof. reflexivity. Qed.

Lemma scan_ifconfig_no_interface (lines : list string) :
  Forall (fun l => PyStr.startswith (PyStr.strip l) "en" = false) lines ->
  scan_ifconfig None lines = None.
Proof.
  induction 1 as [|l lines Hl _ IH]; [reflexivity|].
  cbn [scan_ifconfig]. rewrite Hl. cbn [truthy].
  now rewrite andb_false_r.
Qed.

(** X12.  When no line of the [ifconfig] output starts, after trimming,
    with ["en"], [get_ip_macos] returns no address, whatever [inet] lines
    the output has. *)
Theorem get_ip_macos_needs_en_interface (w : World) (tr : list Event)
    (out : string) :
  run_command w Ifconfig = Some out ->
  Forall (fun l => PyStr.startswith (PyStr.strip l) "en" = false)
         (PyStr.split LF out) ->
  get_ip_macos w tr = (None, tr ++ [EvRun Ifconfig]).
Proof.
  intros Hout Hall. unfold get_ip_macos, bind, emit, ret.
  rewrite Hout. now rewrite scan_ifconfig_no_interface.
Qed.

Lemma get_ip_macos_needs_en_interface_witness :
  get_ip_macos macos_loopback_world [] = (None, [] ++ [EvRun Ifconfig]).
Proof.
  apply (get_ip_macos_needs_en_interface macos_loopback_world []
           loopback_only_ifconfig); [reflexivity|].
  apply Forall_forall. intros l Hl.
  assert (F : forallb (fun l => negb (PyStr.startswith (PyStr.strip l) "en"))
                (PyStr.split LF loopback_only_ifconfig) = true)
    by (vm_compute; reflexivity).
  rewrite forallb_forall in F. specialize (F l Hl).
  now apply negb_true_iff in F.
Defined.

(** ** Rewrite reconciler *)

(** The five ways through [process_hostname]: current rule, stale rule
    with the delete accepted or refused, no rule, malformed hostname. *)
Ltac process_cases w h ip snap tr :=
  let Hv := fresh "Hv" in
  let Hm := fresh "Hm" in
  let Ha := fresh "Ha" in
  let Hdel := fresh "Hdel" in
  let r := fresh "r" in
  unfold process_hostname, bind, emit;
  destruct (validate_hostname h) eqn:Hv; cbn [negb];
  [ destruct (first_match h snap) as [r|] eqn:Hm;
    [ destruct (py_eq (answer r) ip) eqn:Ha;
      [ rewrite (scan_rewrites_current w h ip snap r _ Hm Ha)
      | rewrite (scan_rewrites_stale w h ip snap r _ Hm Ha);
        destruct (http_delete w (tr ++ [EvProcess h]) h) eqn:Hdel ]
    | rewrite (scan_rewrites_absent w h ip snap _ Hm) ]
  | ];
  unfold add_dns_rewrite, ret.

(** X13.  Whatever the snapshot and the answers of the store, one call of
    [process_hostname] makes one of four sequences of calls: none; one
    refused delete, with result [False]; one accepted delete followed by
    one create; or one create alone.  Every call is for the hostname itself
    and the create carries the given address, and its result is the result
    of the hostname. *)
Theorem process_hostname_calls (w : World) (h ip : string)
    (snap : list Rewrite) (tr : list Event) :
  exists res muts,
    process_hostname w h ip snap tr = (res, (tr ++ [EvProcess h]) ++ muts)
    /\ (muts = []
        \/ (muts = [EvDelete h false] /\ res = false)
        \/ muts = [EvDelete h true; EvAdd h ip res]
        \/ muts = [EvAdd h ip res]).
Proof.
  process_cases w h ip snap tr.
  - exists true, []. rewrite app_nil_r. auto.
  - exists (http_add w ((tr ++ [EvProcess h]) ++ [EvDelete h true]) h ip).
    eexists. split; [|right; right; left; reflexivity].
    f_equal. now rewrite <- (app_assoc (tr ++ [EvProcess h])).
  - exists false, [EvDelete h false]. auto.
  - eexists _, [EvAdd h ip _]. split; [reflexivity | auto].
  - exists false, []. rewrite app_nil_r. auto.
Qed.

(** The new events of [process_hostname]: its mark, then calls for the
    hostname only, and none for a malformed hostname. *)
Lemma process_hostname_shape (w : World) (h ip : string)
    (snap : list Rewrite) (tr : list Event) :
  exists muts,
    snd (process_hostname w h ip snap tr) = tr ++ EvProcess h :: muts
    /\ forallb (mutation_on h ip) muts = true
    /\ forallb is_mutation muts = true
    /\ (validate_hostname h = false -> muts = []).
Proof.
  process_cases w h ip snap tr; cbn [snd].
  - exists []. auto.
  - exists [EvDelete h true;
            EvAdd h ip (http_add w ((tr ++ [EvProcess h]) ++ [EvDelete h true])
                          h ip)].
    rewrite <- !app_assoc. simpl. rewrite !String.eqb_refl.
    repeat split; auto. discriminate.
  - exists [EvDelete h false]. rewrite <- !app_assoc. simpl.
    rewrite !String.eqb_refl. repeat split; auto. discriminate.
  - exists [EvAdd h ip (http_add w (tr ++ [EvProcess h]) h ip)].
    rewrite <- !app_assoc. simpl. rewrite !String.eqb_refl.
    repeat split; auto. discriminate.
  - exists []. auto.
Qed.

(** X14.  For a valid hostname that has no rule in the snapshot,
    [process_hostname] makes one create call and no delete, and returns
    what the create returned. *)
Theorem process_hostname_creates_missing_rule (w : World) (h ip : string)
    (snap : list Rewrite) (tr : list Event) :
  validate_hostname h = true ->
  first_match h snap = None ->
  let tr1 := tr ++ [EvProcess h] in
  process_hostname w h ip snap tr
  = (http_add w tr1 h ip, tr1 ++ [EvAdd h ip (http_add w tr1 h ip)]).
Proof.
  intros Hv Hm tr1. unfold process_hostname, bind, emit.
  rewrite Hv. cbn [negb]. fold tr1.
  now rewrite (scan_rewrites_absent w h ip snap tr1 Hm).
Qed.

Lemma process_hostname_creates_missing_rule_witness :
  process_hostname sample_world "new.local" "10.0.0.7" sample_snapshot []
  = (true, [EvProcess "new.local"; EvAdd "new.local" "10.0.0.7" true]).
Proof.
  apply (process_hostname_creates_missing_rule
           sample_world "new.local" "10.0.0.7" sample_snapshot []);
    reflexivity.
Defined.

Lemma first_match_singleton (h : string) (snap : list Rewrite) (r : Rewrite) :
  first_match h snap = Some r -> first_match h [r] = Some r.
Proof.
  unfold first_match. intros H. apply find_some in H as [_ H].
  simpl. now rewrite H.
Qed.

(** X15.  Only the first rule of the snapshot for the hostname counts:
    [process_hostname] does the same on the whole snapshot as on that rule
    alone (or on the empty snapshot when there is none), whatever other
    rules, also for the same domain, follow it. *)
Theorem process_hostname_first_match_only (w : World) (h ip : string)
    (snap : list Rewrite) (tr : list Event) :
  process_hostname w h ip snap tr
  = process_hostname w h ip
      (match first_match h snap with Some r => [r] | None => [] end) tr.
Proof.
  unfold process_hostname, bind, emit.
  destruct (validate_hostname h); cbn [negb]; [|reflexivity].
  destruct (first_match h snap) as [r|] eqn:Hm.
  - pose proof (first_match_singleton h snap r Hm) as Hs.
    destruct (py_eq (answer r) ip) eqn:Ha.
    + rewrite (scan_rewrites_current w h ip snap r _ Hm Ha).
      now rewrite (scan_rewrites_current w h ip [r] r _ Hs Ha).
    + rewrite (scan_rewrites_stale w h ip snap r _ Hm Ha).
      now rewrite (scan_rewrites_stale w h ip [r] r _ Hs Ha).
  - now rewrite (scan_rewrites_absent w h ip snap _ Hm).
Qed.

(** X16.  [process_hostname] reports success only for a valid hostname,
    and only when its first rule in the snapshot already has the address or
    when its last call was a create for the hostname and the address that
    the store accepted. *)
Theorem process_hostname_success_means (w : World) (h ip : string)
    (snap : list Rewrite) (tr : list Event) :
  fst (process_hostname w h ip snap tr) = true ->
  validate_hostname h = true
  /\ ((exists r, first_match h snap = Some r /\ answer r = Some ip)
      \/ exists tr',
           snd (process_hostname w h ip snap tr) = tr' ++ [EvAdd h ip true]).
Proof.
  process_cases w h ip snap tr; cbn [fst snd]; intros Hres;
    try discriminate; split; try reflexivity.
  - left. exists r. split; [reflexivity | now apply py_eq_true].
  - right. rewrite Hres. eauto.
  - right. rewrite Hres. eauto.
Qed.

Lemma process_hostname_success_means_witness :
  validate_hostname "old.local" = true
  /\ ((exists r, first_match "old.local" sample_snapshot = Some r
                 /\ answer r = Some "10.0.0.7")
      \/ exists tr',
           snd (process_hostname sample_world "old.local" "10.0.0.7"
                  sample_snapshot [])
           = tr' ++ [EvAdd "old.local" "10.0.0.7" true]).
Proof.
  apply (process_hostname_success_means sample_world "old.local" "10.0.0.7"
           sample_snapshot []).
  reflexivity.
Defined.

(** ** The run *)

Lemma existsb_eqb_In (d : string) (hs : list string) :
  existsb (String.eqb d) hs = true <-> In d hs.
Proof.
  rewrite existsb_exists. split.
  - intros (x & Hx & E). apply String.eqb_eq in E. now subst.
  - intros H. exists d. split; [assumption | apply String.eqb_refl].
Qed.

Lemma mutation_on_run_event_ok (all : list string) (h ip : string) (e : Event) :
  In h all -> validate_hostname h = true ->
  mutation_on h ip e = true -> run_event_ok all ip e = true.
Proof.
  intros Hin Hv. destruct e; simpl; try discriminate.
  - intros E. apply String.eqb_eq in E. subst d.
    rewrite Hv, andb_true_r. now apply existsb_eqb_In.
  - intros E. apply andb_prop in E as [E1 E2].
    apply String.eqb_eq in E1. subst d.
    rewrite Hv, E2, !andb_true_r. now apply existsb_eqb_In.
Qed.

Lemma filter_none {A} (p q : A -> bool) (l : list A) :
  (forall x, q x = true -> p x = false) ->
  forallb q l = true -> filter p l = [].
Proof.
  intros H F. apply filter_all_false. intros x Hx.
  rewrite forallb_forall in F. auto.
Qed.

(** The new events of the loop: one mark per hostname, in order, each
    followed by the calls for that hostname. *)
Lemma process_all_shape (w : World) (ip : string) (snap : list Rewrite)
    (all hs : list string) (n : nat) (tr : list Event) :
  incl hs all ->
  exists evs,
    snd (process_all w ip snap hs n tr) = tr ++ evs
    /\ filter is_processing evs = map EvProcess hs
    /\ forallb (run_event_ok all ip) evs = true
    /\ forallb (fun e => is_processing e || is_mutation e) evs = true.
Proof.
  revert n tr. induction hs as [|h rest IH]; intros n tr Hincl.
  - exists []. simpl. rewrite app_nil_r. auto.
  - cbn [process_all]. unfold bind.
    destruct (process_hostname_shape w h ip snap tr) as (muts & E & Fon & Fm & Hinv).
    destruct (process_hostname w h ip snap tr) as [ok tr1].
    cbn [snd] in E. subst tr1.
    destruct (IH (if ok then n + 1 else n) (tr ++ EvProcess h :: muts))
      as (evs & E2 & Fp & Fok & Fall).
    { intros x Hx. apply Hincl. now right. }
    exists (EvProcess h :: muts ++ evs). rewrite E2. split; [|split; [|split]].
    + rewrite <- app_assoc. reflexivity.
    + cbn [filter is_processing map]. rewrite filter_app, Fp.
      rewrite (filter_none is_processing is_mutation muts); [reflexivity| |exact Fm].
      intros []; simpl; congruence.
    + cbn [forallb run_event_ok andb]. rewrite forallb_app, Fok, andb_true_r.
      destruct (validate_hostname h) eqn:Hv; [|now rewrite Hinv].
      rewrite forallb_forall in *. intros e He.
      apply (mutation_on_run_event_ok all h ip); auto.
      apply Hincl. now left.
    + cbn [forallb is_processing orb andb]. rewrite forallb_app, Fall, andb_true_r.
      rewrite forallb_forall in *. intros e He.
      rewrite (Fm e He). apply orb_true_r.
Qed.

(** The trace of a run: calls of the resolver; then, when an address was
    found, the list call; then the events of the loop. *)
Lemma update_dns_rewrite_trace (cfg : Config) (w : World) (tr : list Event) :
  exists e1 e2,
    snd (update_dns_rewrite cfg w tr) = tr ++ e1 ++ e2
    /\ forallb is_resolver e1 = true
    /\ (e2 = []
        \/ exists ip e3,
             fst (get_ethernet_ip w tr) = Some ip
             /\ e2 = EvList :: e3
             /\ forallb (run_event_ok (parse_hostnames cfg) ip) e3 = true
             /\ forallb (fun e => is_processing e || is_mutation e) e3 = true).
Proof.
  destruct (fatal_errors_early cfg w tr) as [Early | (Hu & Hp & Hh)].
  { exists [], []. rewrite Early. simpl. rewrite app_nil_r. auto. }
  rewrite update_dns_rewrite_unfold by assumption.
  destruct (get_ethernet_ip_appends w tr) as (e1 & E1 & F1).
  destruct (get_ethernet_ip w tr) as [x tr1]. cbn [fst snd] in *. subst tr1.
  exists e1. destruct (truthy x) eqn:Tx.
  - apply truthy_Some in Tx as (ip & -> & Hne).
    destruct (http_list w) as [snap|].
    + destruct (process_all_shape w ip snap (parse_hostnames cfg)
                  (parse_hostnames cfg) 0 ((tr ++ e1) ++ [EvList]))
        as (e3 & E3 & _ & Fok & Fall); [apply incl_refl|].
      destruct (process_all w ip snap (parse_hostnames cfg) 0
                  ((tr ++ e1) ++ [EvList])) as [c tr2].
      cbn [snd] in *. subst tr2.
      exists (EvList :: e3). split; [|split; [assumption|]].
      * rewrite <- !app_assoc. reflexivity.
      * right. exists ip, e3. auto.
    + exists [EvList]. cbn [snd]. split; [|split; [assumption|]].
      * now rewrite <- app_assoc.
      * right. exists ip, []. auto.
  - exists []. cbn [snd]. rewrite app_nil_r. auto.
Qed.

Lemma process_all_invalid (w : World) (ip : string) (snap : list Rewrite)
    (hs : list string) (n : nat) (tr : list Event) :
  Forall (fun h => validate_hostname h = false) hs ->
  process_all w ip snap hs n tr = (n, tr ++ map EvProcess hs).
Proof.
  intros Hall. revert n tr. induction Hall as [|h rest Hh _ IH]; intros n tr.
  - simpl. unfold ret. now rewrite app_nil_r.
  - cbn [process_all]. unfold bind, process_hostname, bind, emit.
    rewrite Hh. cbn [negb]. unfold ret. rewrite IH, <- app_assoc. reflexivity.
Qed.

(** X17.  A run whose configured hostnames are all malformed returns
    [False] and never calls delete or create. *)
Theorem update_dns_rewrite_all_invalid (cfg : Config) (w : World)
    (tr : list Event) :
  Forall (fun h => validate_hostname h = false) (parse_hostnames cfg) ->
  fst (update_dns_rewrite cfg w tr) = false
  /\ exists evs,
       snd (update_dns_rewrite cfg w tr) = tr ++ evs
       /\ existsb is_mutation evs = false.
Proof.
  intros Hall.
  destruct (fatal_errors_early cfg w tr) as [Early | (Hu & Hp & Hh)].
  { rewrite Early. split; [reflexivity|]. exists []. simpl.
    now rewrite app_nil_r. }
  rewrite update_dns_rewrite_unfold by assumption.
  destruct (get_ethernet_ip_appends w tr) as (e1 & E1 & F1).
  destruct (get_ethernet_ip w tr) as [x tr1]. cbn [fst snd] in *. subst tr1.
  assert (M1 : existsb is_mutation e1 = false)
    by (eapply none_of_class; [|exact F1]; intros []; simpl; congruence).
  destruct (truthy x); [|split; [reflexivity | exists e1; auto]].
  assert (L : existsb is_mutation (e1 ++ [EvList]) = false)
    by (rewrite existsb_app, M1; reflexivity).
  destruct x as [ip|];
    [|split; [reflexivity | exists (e1 ++ [EvList]); rewrite app_assoc; auto]].
  destruct (http_list w) as [snap|];
    [|split; [reflexivity | exists (e1 ++ [EvList]); rewrite app_assoc; auto]].
  rewrite process_all_invalid by assumption. cbn [fst snd]. split.
  - unfold summary. destruct (parse_hostnames cfg); [congruence | reflexivity].
  - exists ((e1 ++ [EvList]) ++ map EvProcess (parse_hostnames cfg)).
    split; [now rewrite !app_assoc|].
    rewrite existsb_app, L. apply no_mutation_in_processing.
Qed.

Lemma update_dns_rewrite_all_invalid_witness :
  fst (update_dns_rewrite invalid_config sample_world []) = false
  /\ exists evs,
       snd (update_dns_rewrite invalid_config sample_world []) = [] ++ evs
       /\ existsb is_mutation evs = false.
Proof.
  apply (update_dns_rewrite_all_invalid invalid_config sample_world []).
  repeat (apply Forall_cons; [reflexivity|]). apply Forall_nil.
Defined.

(** X18.  A run that reaches the loop processes every configured
    hostname once, in the configured order, whatever fails on the way: after
    the list call the trace holds one processing mark per hostname and,
    besides, delete and create calls only. *)
Theorem update_dns_rewrite_processes_all (cfg : Config) (w : World)
    (tr tr1 : list Event) (ip : string) (snap : list Rewrite) :
  truthy (ADGUARD_USERNAME cfg) = true ->
  truthy (ADGUARD_PASSWORD cfg) = true ->
  parse_hostnames cfg <> [] ->
  get_ethernet_ip w tr = (Some ip, tr1) ->
  PyStr.nonempty ip = true ->
  http_list w = Some snap ->
  exists evs,
    snd (update_dns_rewrite cfg w tr) = (tr1 ++ [EvList]) ++ evs
    /\ filter is_processing evs = map EvProcess (parse_hostnames cfg)
    /\ forallb (fun e => is_processing e || is_mutation e) evs = true.
Proof.
  intros Hu Hp Hh Hip Hne Hl.
  rewrite update_dns_rewrite_unfold by assumption.
  rewrite Hip, Hl. cbn [truthy]. rewrite Hne.
  destruct (process_all_shape w ip snap (parse_hostnames cfg)
              (parse_hostnames cfg) 0 (tr1 ++ [EvList]))
    as (evs & E & Fp & _ & Fall); [apply incl_refl|].
  destruct (process_all w ip snap (parse_hostnames cfg) 0 (tr1 ++ [EvList]))
    as [c tr2]. cbn [snd] in *. eauto.
Qed.

Lemma update_dns_rewrite_processes_all_witness :
  exists evs,
    snd (update_dns_rewrite partial_config sample_world [])
    = ([EvExists "/.dockerenv"; EvOpen "/proc/1/cgroup"; EvRun IpRouteGet]
         ++ [EvList]) ++ evs
    /\ filter is_processing evs = map EvProcess (parse_hostnames partial_config)
    /\ forallb (fun e => is_processing e || is_mutation e) evs = true.
Proof.
  apply (update_dns_rewrite_processes_all partial_config sample_world []
           [EvExists "/.dockerenv"; EvOpen "/proc/1/cgroup"; EvRun IpRouteGet]
           "10.0.0.7" sample_snapshot);
    try reflexivity. discriminate.
Defined.

(** X19.  A run deletes and creates rules only for configured hostnames
    that pass validation, and every rule it creates answers with the
    address that the resolver returned. *)
Theorem update_dns_rewrite_touches_only_configured (cfg : Config) (w : World)
    (tr : list Event) :
  exists evs,
    snd (update_dns_rewrite cfg w tr) = tr ++ evs
    /\ forall e, In e evs ->
         match e with
         | EvDelete d _ =>
             In d (parse_hostnames cfg) /\ validate_hostname d = true
         | EvAdd d a _ =>
             In d (parse_hostnames cfg) /\ validate_hostname d = true
             /\ fst (get_ethernet_ip w tr) = Some a
         | _ => True
         end.
Proof.
  destruct (update_dns_rewrite_trace cfg w tr) as (e1 & e2 & E & F1 & H2).
  exists (e1 ++ e2). split; [exact E|].
  intros e He. apply in_app_or in He as [He|He].
  - rewrite forallb_forall in F1. specialize (F1 e He).
    destruct e; simpl in F1; try exact I; discriminate.
  - destruct H2 as [-> | (ip & e3 & Hip & -> & Fok & _)]; [destruct He|].
    destruct He as [<-|He]; [exact I|].
    rewrite forallb_forall in Fok. specialize (Fok e He).
    destruct e; try exact I; simpl in Fok.
    + apply andb_prop in Fok as [Hin Hv]. apply existsb_eqb_In in Hin. auto.
    + apply andb_prop in Fok as [Fok Ha]. apply andb_prop in Fok as [Hin Hv].
      apply existsb_eqb_In in Hin. apply String.eqb_eq in Ha. subst. auto.
Qed.

(** X20.  The calls of a run come in three phases: first the calls of
    the resolver, then at most one list call, then per-hostname processing
    with its deletes and creates.  The list is never fetched again once
    processing has begun. *)
Theorem update_dns_rewrite_phases (cfg : Config) (w : World) (tr : list Event) :
  exists e1 e2,
    snd (update_dns_rewrite cfg w tr) = tr ++ e1 ++ e2
    /\ forallb is_resolver e1 = true
    /\ (e2 = []
        \/ exists e3,
             e2 = EvList :: e3
             /\ forallb (fun e => is_processing e || is_mutation e) e3 = true).
Proof.
  destruct (update_dns_rewrite_trace cfg w tr) as (e1 & e2 & E & F1 & H2).
  exists e1, e2. split; [exact E|]. split; [exact F1|].
  destruct H2 as [-> | (ip & e3 & _ & -> & _ & Fall)]; [auto|].
  right. exists e3. auto.
Qed.

(** X21.  A run returns [True] only when both credentials and at least
    one hostname are configured, the resolver returned a non-empty address
    and the list call succeeded. *)
Theorem update_dns_rewrite_success_requires (cfg : Config) (w : World)
    (tr : list Event) :
  fst (update_dns_rewrite cfg w tr) = true ->
  truthy (ADGUARD_USERNAME cfg) = true
  /\ truthy (ADGUARD_PASSWORD cfg) = true
  /\ parse_hostnames cfg <> []
  /\ (exists ip, fst (get_ethernet_ip w tr) = Some ip /\ ip <> EmptyString)
  /\ exists snap, http_list w = Some snap.
Proof.
  intros Hres.
  destruct (fatal_errors_early cfg w tr) as [Early | (Hu & Hp & Hh)].
  { rewrite Early in Hres. discriminate. }
  rewrite update_dns_rewrite_unfold in Hres by assumption.
  destruct (get_ethernet_ip w tr) as [x tr1]. cbn [fst].
  destruct (truthy x) eqn:Tx; [|discriminate].
  apply truthy_Some in Tx as (ip & -> & Hne).
  destruct (http_list w) as [snap|]; [|discriminate].
  repeat split; try assumption.
  - exists ip. split; [reflexivity|]. intros ->. discriminate.
  - eauto.
Qed.

Lemma update_dns_rewrite_success_requires_witness :
  truthy (ADGUARD_USERNAME partial_config) = true
  /\ truthy (ADGUARD_PASSWORD partial_config) = true
  /\ parse_hostnames partial_config <> []
  /\ (exists ip, fst (get_ethernet_ip sample_world []) = Some ip
                 /\ ip <> EmptyString)
  /\ exists snap, http_list sample_world = Some snap.
Proof.
  apply (update_dns_rewrite_success_requires partial_config sample_world []).
  reflexivity.
Defined.

(** ** Command line *)

(** X22.  With [-h] or [--help] as first argument, [main] returns with
    status 0 and calls nothing outside the process. *)
Theorem main_help_calls_nothing (prog flag : string) (rest : list string)
    (cfg : Config) (w : World) (tr : list Event) :
  flag = "-h" \/ flag = "--help" ->
  main (prog :: flag :: rest) cfg w tr = (0, tr).
Proof. intros [-> | ->]; reflexivity. Qed.

Lemma main_help_calls_nothing_witness :
  main ["update-adguard-dns.py"; "--help"; "--dry-run"] sample_config
       sample_world []
  = (0, []).
Proof.
  apply (main_help_calls_nothing "update-adguard-dns.py" "--help"
           ["--dry-run"] sample_config sample_world []).
  right. reflexivity.
Defined.

(** X23.  With [--dry-run] as first argument, [main] returns with status
    0 after calls of the resolver only: the store is never called, neither
    to list nor to delete or create. *)
Theorem main_dry_run_spares_store (prog : string) (rest : list string)
    (cfg : Config) (w : World) (tr : list Event) :
  exists evs,
    main (prog :: "--dry-run" :: rest) cfg w tr = (0, tr ++ evs)
    /\ forallb is_resolver evs = true
    /\ existsb is_remote evs = false.
Proof.
  unfold main. cbn [nth List.length Nat.ltb Nat.leb andb].
  cbn [String.eqb Ascii.eqb Bool.eqb orb andb]. unfold bind, ret.
  destruct (get_ethernet_ip_appends w tr) as (evs & E & F).
  destruct (get_ethernet_ip w tr) as [x tr1]. cbn [snd] in E. subst tr1.
  exists evs. split; [reflexivity|]. split; [exact F|].
  eapply none_of_class; [|exact F]. intros []; simpl; congruence.
Qed.

(** X24.  Without one of the three options as first argument, [main]
    runs [update_dns_rewrite] and nothing else, and exits with status 0 when
    it returned [True] and 1 when it returned [False]. *)
Theorem main_default_exit_status (argv : list string) (cfg : Config)
    (w : World) (tr : list Event) :
  List.length argv <= 1
  \/ (nth 1 argv EmptyString <> "-h"
      /\ nth 1 argv EmptyString <> "--help"
      /\ nth 1 argv EmptyString <> "--dry-run") ->
  main argv cfg w tr
  = (if fst (update_dns_rewrite cfg w tr) then 0 else 1,
     snd (update_dns_rewrite cfg w tr)).
Proof.
  intros H. unfold main, bind, ret.
  assert (E1 : (1 <? List.length argv)
               && (String.eqb (nth 1 argv EmptyString) "-h"
                   || String.eqb (nth 1 argv EmptyString) "--help") = false).
  { destruct H as [H | (H1 & H2 & _)].
    - apply Nat.ltb_ge in H. now rewrite H.
    - apply String.eqb_neq in H1, H2. rewrite H1, H2. apply andb_false_r. }
  assert (E2 : (1 <? List.length argv)
               && String.eqb (nth 1 argv EmptyString) "--dry-run" = false).
  { destruct H as [H | (_ & _ & H3)].
    - apply Nat.ltb_ge in H. now rewrite H.
    - apply String.eqb_neq in H3. rewrite H3. apply andb_false_r. }
  cbv zeta. rewrite E1, E2.
  destruct (update_dns_rewrite cfg w tr) as [[|] tr1]; reflexivity.
Qed.

Lemma main_default_exit_status_witness :
  main ["update-adguard-dns.py"] invalid_config sample_world []
  = (if fst (update_dns_rewrite invalid_config sample_world []) then 0 else 1,
     snd (update_dns_rewrite invalid_config sample_world []))
  /\ fst (main ["update-adguard-dns.py"; "--verbose"] partial_config
            sample_world []) = 0.
Proof.
  split.
  - apply (main_default_exit_status ["update-adguard-dns.py"] invalid_config
             sample_world []).
    left. simpl. lia.
  - rewrite (main_default_exit_status
               ["update-adguard-dns.py"; "--verbose"] partial_config
               sample_world []).
    + reflexivity.
    + right. simpl. repeat split; discriminate.
Defined.
